(** * tag_quiz: a Penn Treebank tagging quiz

    A shallow embedding of [tag_quiz.py] and the properties of its quiz
    engine: the sentence sampler [get_sents], the tree normaliser
    [parsed_to_tagged], the per-sentence grader [sentence_quiz] and the
    orchestrator [quiz].

    Conventions of the embedding.
    - A Python [str] is a [string] of code points 0..255 (ASCII and Latin-1),
      which covers the Penn Treebank tag set and what a user types for it.
      [str.split] is modelled exactly on these code points, [str.upper] on
      all of them but 181, 223 and 255, whose upper-case forms are not single
      code points below 256 ([PyStr.exact]).
    - A Python [int] is a [Z]; [len] gives a [nat], injected where the code
      does arithmetic with it.
    - Exceptions are values of [exn]; a computation that reads the terminal
      or prints runs in the monad [M] over the [world]: the pending input
      lines and the list of things printed so far.
    - [random.randint] takes the raw draw of the generator as an argument. *)

From Stdlib Require Import String Ascii Bool Arith ZArith QArith Lia List.
Import ListNotations.

Local Open Scope list_scope.
Local Open Scope nat_scope.

(** ** Python strings *)

Module PyStr.

(** [str.isspace] on the code points 0..255: tab, line feed, vertical tab,
    form feed, carriage return, the four separators 28..31, the space, the
    next-line control (133) and the no-break space (160). *)
Definition isspace (c : ascii) : bool :=
  let n := nat_of_ascii c in
  ((9 <=? n) && (n <=? 13)) || ((28 <=? n) && (n <=? 31)) || (n =? 32)
  || (n =? 133) || (n =? 160).

(** The letters that [str.upper] moves to the code point 32 below: a..z and,
    in Latin-1, 224..246 and 248..254. *)
Definition islower (c : ascii) : bool :=
  let n := nat_of_ascii c in
  ((97 <=? n) && (n <=? 122)) || ((224 <=? n) && (n <=? 246))
  || ((248 <=? n) && (n <=? 254)).

Definition upper_char (c : ascii) : ascii :=
  if islower c then ascii_of_nat (nat_of_ascii c - 32) else c.

(** The code points that [upper_char] treats as [str.upper] does: all but the
    micro sign (181), the sharp s (223) and the y with diaeresis (255), which
    Python folds to U+039C, to SS and to U+0178. *)
Definition exact (c : ascii) : bool :=
  let n := nat_of_ascii c in negb ((n =? 181) || (n =? 223) || (n =? 255)).

(** What [str.islower] goes by, Unicode's Lowercase property, on 0..255: the
    letters of [islower], the two ordinal indicators (170, 186), and 181,
    223 and 255. *)
Definition lowercase (c : ascii) : bool :=
  let n := nat_of_ascii c in
  islower c || (n =? 170) || (n =? 186)
  || (n =? 181) || (n =? 223) || (n =? 255).

(** The lower-case characters without an upper-case form: the feminine and
    the masculine ordinal indicator. *)
Definition ordinal (c : ascii) : bool :=
  let n := nat_of_ascii c in (n =? 170) || (n =? 186).

(** [s.upper()] *)
Fixpoint upper (s : string) : string :=
  match s with
  | EmptyString => EmptyString
  | String c s' => String (upper_char c) (upper s')
  end.

Definition is_empty (s : string) : bool :=
  match s with EmptyString => true | _ => false end.

(** The scanner behind [s.split()]: [word] is the word being read. *)
Fixpoint split_from (word s : string) : list string :=
  match s with
  | EmptyString => if is_empty word then [] else [word]
  | String c s' =>
      if isspace c
      then (if is_empty word then split_from EmptyString s'
            else word :: split_from EmptyString s')
      else split_from (word ++ String c EmptyString)%string s'
  end.

(** [s.split()]: the maximal runs of non-blank characters, in order. *)
Definition split (s : string) : list string := split_from EmptyString s.

(** A string that [upper] leaves alone holds no letter of [islower]. *)
Fixpoint no_lower (s : string) : bool :=
  match s with
  | EmptyString => true
  | String c s' => negb (islower c) && no_lower s'
  end.

Fixpoint all_chars (p : ascii -> bool) (s : string) : bool :=
  match s with
  | EmptyString => true
  | String c s' => p c && all_chars p s'
  end.

(** A line on which the model folds and splits as Python does. *)
Definition exact_line (s : string) : bool := all_chars exact s.

(** A string without a lower-case character, in the sense of Python. *)
Definition fully_upper (s : string) : bool :=
  all_chars (fun c => negb (lowercase c)) s.

(** A string whose only lower-case characters are ordinal indicators. *)
Definition folded (s : string) : bool :=
  all_chars (fun c => negb (lowercase c) || ordinal c) s.

End PyStr.

(** ** Exceptions, outcomes and the world *)

Inductive exn : Type :=
| ValueError          (* randint on an empty range *)
| ZeroDivisionError   (* x / 0 *)
| EOFError.           (* input() at the end of the input *)

Inductive outcome (A : Type) : Type :=
| Returns (a : A)
| Raises (e : exn).
Arguments Returns {A} a.
Arguments Raises {A} e.

(** What the program writes, one constructor per [print] of the source. The
    percentages are floats rounded for display; a message carries the two
    integers they are computed from. *)
Inductive msg : Type :=
| LoadingTreebank
| GatheringSentences
| Index (start_point : Z)
| PrintToken (token : string)        (* print(token, end = " ") *)
| Newline                            (* print("") *)
| TotalTokens (num_tokens : nat)
| Prompt                             (* the "> " of input *)
| TooManyTags (n : nat)
| TooFewTags (n : nat)
| Score (correct : Z) (total : nat)
| MistakeHeader
| MistakeRule
| MistakeRow (token tag guess : string)
| SentenceHeading (sent_num : nat)
| FinalScore (total_correct total_attempted : Z)
| FrequentHeader
| FrequentRow (key : string) (count : Z).

Record world : Type := World { stdin : list string; stdout : list msg }.

Definition M (A : Type) : Type := world -> outcome A * world.

Definition ret {A} (a : A) : M A := fun w => (Returns a, w).

Definition bind {A B} (c : M A) (k : A -> M B) : M B :=
  fun w => match c w with
           | (Returns a, w') => k a w'
           | (Raises e, w') => (Raises e, w')
           end.

Definition lift {A} (o : outcome A) : M A := fun w => (o, w).

Notation "x <- c ;; k" := (bind c (fun x => k))
  (at level 61, c at next level, right associativity).
Notation "c ;;; k" := (bind c (fun _ => k))
  (at level 61, right associativity).

Definition print (m : msg) : M unit :=
  fun w => (Returns tt, World (stdin w) (stdout w ++ [m])).

(** [input("> ")]: writes the prompt, then takes the next line. *)
Definition input : M string :=
  fun w =>
    let out := stdout w ++ [Prompt] in
    match stdin w with
    | [] => (Raises EOFError, World [] out)
    | line :: rest => (Returns line, World rest out)
    end.

Fixpoint for_each {A} (l : list A) (body : A -> M unit) : M unit :=
  match l with
  | [] => ret tt
  | x :: l' => body x ;;; for_each l' body
  end.

(** ** Python integers, lists and dictionaries *)

Module Py.

(** [random.randint(a, b)]: ValueError on an empty range, otherwise a value of
    [a..b] fixed by the draw of the generator. *)
Definition randint (a b : Z) (draw : Z) : outcome Z :=
  if (b <? a)%Z then Raises ValueError
  else Returns (a + draw mod (b - a + 1))%Z.

(** An index of a slice: counted from the end when negative, then clipped. *)
Definition clip (len i : Z) : Z :=
  if (i <? 0)%Z then Z.max (i + len) 0 else Z.min i len.

(** [l[start:stop]] *)
Definition slice {A} (l : list A) (start stop : Z) : list A :=
  let len := Z.of_nat (length l) in
  let lo := clip len start in
  let hi := clip len stop in
  firstn (Z.to_nat (hi - lo)) (skipn (Z.to_nat lo) l).

(** [zip(a, b, c)] stops with the shortest argument. *)
Fixpoint zip3 {A B C} (a : list A) (b : list B) (c : list C)
  : list (A * B * C) :=
  match a, b, c with
  | x :: a', y :: b', z :: c' => (x, y, z) :: zip3 a' b' c'
  | _, _, _ => []
  end.

Definition sum (l : list Z) : Z := fold_left Z.add l 0%Z.

(** [x / y] on integers. Python rounds the quotient to a float; the model
    keeps the exact rational, and the error on a zero divisor. *)
Definition true_div (x y : Z) : outcome Q :=
  if (y =? 0)%Z then Raises ZeroDivisionError
  else Returns (inject_Z x / inject_Z y)%Q.

(** A [dict] from tags to counts; iteration follows insertion order. *)
Definition dict : Type := list (string * Z).

Fixpoint get (k : string) (d : dict) : option Z :=
  match d with
  | [] => None
  | (k', v) :: d' => if String.eqb k k' then Some v else get k d'
  end.

(** [d[k] = v]: in place for a key already there, at the end for a new one. *)
Fixpoint set (k : string) (v : Z) (d : dict) : dict :=
  match d with
  | [] => [(k, v)]
  | (k', v') :: d' =>
      if String.eqb k k' then (k', v) :: d' else (k', v') :: set k v d'
  end.

Definition keys (d : dict) : list string := map fst d.
Definition values (d : dict) : list Z := map snd d.

End Py.

(** ** get_sents *)

Definition get_sents {A} (corpus : list A) (number : Z) (draw : Z)
  : M (list A) :=
  print GatheringSentences ;;;
  let length_corpus := Z.of_nat (length corpus) in
  start_point <- lift (Py.randint 0 (length_corpus - number) draw) ;;
  print (Index start_point) ;;;
  ret (Py.slice corpus start_point (start_point + number)).

(** ** token_list_print *)

(** The loop of [token_list_print]: what it prints from column
    [column_counter] on. *)
Fixpoint token_list_out (token_list : list string) (width column_counter : nat)
  : list msg :=
  match token_list with
  | [] => []
  | token :: rest =>
      if column_counter + String.length token <=? width
      then PrintToken token
           :: token_list_out rest width (column_counter + (String.length token + 1))
      else Newline :: PrintToken token
           :: token_list_out rest width (String.length token)
  end.

Definition token_list_print (token_list : list string) (width : nat) : M unit :=
  fun w =>
    (Returns tt,
     World (stdin w) (stdout w ++ token_list_out token_list width 0 ++ [Newline])).

(** ** sentence_quiz *)

Definition tagged_token : Type := (string * string)%type.
Definition tagged_sentence : Type := list tagged_token.

(** A sentence's result: (correct, len(tags), mistakes). *)
Definition sentence_result : Type :=
  (Z * Z * list (string * string))%type.

(** [input("> ").upper().split()] applied to a line. *)
Definition read_guess_tags (line : string) : list string :=
  PyStr.split (PyStr.upper line).

(** The [while not all_tagged] loop, by recursion on the lines still to be
    read; it returns the [guess_tags] of the line that ends it. *)
Fixpoint until_all_tagged (tokens : list string) (num_tokens : nat)
  (lines : list string) (out : list msg) : outcome (list string) * world :=
  let out := out ++ token_list_out tokens 80 0 ++ [Newline] ++ [Prompt] in
  match lines with
  | [] => (Raises EOFError, World [] out)
  | line :: rest =>
      let guess_tags := read_guess_tags line in
      if length guess_tags =? num_tokens
      then (Returns guess_tags, World rest out)
      else if num_tokens <? length guess_tags
      then until_all_tagged tokens num_tokens rest
             (out ++ [TooManyTags (length guess_tags)])
      else until_all_tagged tokens num_tokens rest
             (out ++ [TooFewTags (length guess_tags)])
  end.

Definition ask_guess_tags (tokens : list string) (num_tokens : nat)
  : M (list string) :=
  fun w => until_all_tagged tokens num_tokens (stdin w) (stdout w).

(** The loop that checks the answers: the zipped triples whose tag differs
    from the guess, appended one by one. *)
Definition check_answers (tokens_guesses : list (string * string * string))
  : list (string * string * string) :=
  fold_left
    (fun incorrect token =>
       let '(_, tag, tag_guess) := token in
       if negb (String.eqb tag tag_guess) then incorrect ++ [token]
       else incorrect)
    tokens_guesses [].

Definition incorrect_of (tagged_sent : tagged_sentence)
  (guess_tags : list string) : list (string * string * string) :=
  let tokens := map fst tagged_sent in
  let tags := map snd tagged_sent in
  check_answers (Py.zip3 tokens tags guess_tags).

(** What [sentence_quiz] returns once the user's line is [guess_tags]:
    the grader proper, free of input and output. *)
Definition grade (tagged_sent : tagged_sentence) (guess_tags : list string)
  : sentence_result :=
  let tags := map snd tagged_sent in
  let incorrect := incorrect_of tagged_sent guess_tags in
  let correct := (Z.of_nat (length tags) - Z.of_nat (length incorrect))%Z in
  let mistakes :=
    map (fun token : string * string * string =>
           let '(_, tag, tag_guess) := token in (tag, tag_guess)) incorrect in
  (correct, Z.of_nat (length tags), mistakes).

Definition sentence_quiz (tagged_sent : tagged_sentence) : M sentence_result :=
  let tokens := map fst tagged_sent in
  let tags := map snd tagged_sent in
  let num_tokens := length tokens in
  print (TotalTokens num_tokens) ;;;
  guess_tags <- ask_guess_tags tokens num_tokens ;;
  let incorrect := incorrect_of tagged_sent guess_tags in
  let correct := (Z.of_nat (length tags) - Z.of_nat (length incorrect))%Z in
  (* round(correct / len(tags) * 100) is evaluated before the print *)
  _ <- lift (Py.true_div correct (Z.of_nat (length tags))) ;;
  print (Score correct (length tags)) ;;;
  (if 0 <? length incorrect
   then print MistakeHeader ;;;
        print MistakeRule ;;;
        for_each incorrect
          (fun token : string * string * string =>
             let '(tok, tag, tag_guess) := token in
             print (MistakeRow tok tag tag_guess))
   else ret tt) ;;;
  ret (grade tagged_sent guess_tags).

(** ** parsed_to_tagged and quiz *)

Section Treebank.

(** A parsed sentence is a tree of the corpus reader; the program uses only
    its [pos()], the (token, tag) pairs of the leaves from left to right. *)
Variable ParseTree : Type.
Variable pos : ParseTree -> list tagged_token.

(** The inner loop: the leaves kept so far are [tagged_sent]. *)
Definition keep_tagged (leaves : list tagged_token) : tagged_sentence :=
  fold_left
    (fun tagged_sent leaf =>
       let '(token, tagged) := leaf in
       if negb (String.eqb tagged "-NONE-") then tagged_sent ++ [(token, tagged)]
       else tagged_sent)
    leaves [].

Definition parsed_to_tagged (parsed_sents : list ParseTree)
  : list tagged_sentence :=
  fold_left
    (fun tagged_sents sent => tagged_sents ++ [keep_tagged (pos sent)])
    parsed_sents [].

(** The [for sentence in tagged] loop of [quiz]. *)
Fixpoint quiz_sentences (tagged : list tagged_sentence) (sent_num : nat)
  (results : list sentence_result) : M (list sentence_result) :=
  match tagged with
  | [] => ret results
  | sentence :: rest =>
      let sent_num := sent_num + 1 in
      print (SentenceHeading sent_num) ;;;
      r <- sentence_quiz sentence ;;
      quiz_sentences rest sent_num (results ++ [r])
  end.

(** [d[k] += 1] for a key of [d], [d[k] = 1] for a new one. *)
Definition count_up (k : string) (d : Py.dict) : Py.dict :=
  match Py.get k d with
  | Some n => Py.set k (n + 1)%Z d
  | None => Py.set k 1%Z d
  end.

(** The two nested loops that fill [mistagged] and [overused]. *)
Definition count_mistakes (mistakes_list : list (list (string * string)))
  : Py.dict * Py.dict :=
  fold_left
    (fun counts mistakes =>
       fold_left
         (fun (counts : Py.dict * Py.dict) (m : string * string) =>
            let '(mistagged, overused) := counts in
            let '(correct, mistake) := m in
            (count_up correct mistagged, count_up mistake overused))
         mistakes counts)
    mistakes_list ([], []).

(** The closing report on the tags mistagged at least [average] times. *)
Definition report_frequent (mistagged : Py.dict) : M unit :=
  if 0 <? length mistagged
  then
    average <- lift (Py.true_div (Py.sum (Py.values mistagged))
                                 (Z.of_nat (length mistagged))) ;;
    print FrequentHeader ;;;
    for_each mistagged
      (fun entry : string * Z =>
         let '(key, count) := entry in
         if Qle_bool average (inject_Z count)
         then print (FrequentRow key count)
         else ret tt)
  else ret tt.

(** The values [quiz] holds when it ends (the function itself returns
    [None]). *)
Record quiz_report : Type := QuizReport {
  results : list sentence_result;
  total_correct : Z;
  total_attempted : Z;
  mistagged : Py.dict;
  overused : Py.dict
}.

Definition quiz (corpus : list ParseTree) (sentences : Z) (draw : Z)
  : M quiz_report :=
  parsed <- get_sents corpus sentences draw ;;
  let tagged := parsed_to_tagged parsed in
  results <- quiz_sentences tagged 0 [] ;;
  let total_correct :=
    Py.sum (map (fun r : sentence_result => fst (fst r)) results) in
  let total_attempted :=
    Py.sum (map (fun r : sentence_result => snd (fst r)) results) in
  _ <- lift (Py.true_div total_correct total_attempted) ;;
  print (FinalScore total_correct total_attempted) ;;;
  let mistakes_list := map (fun r : sentence_result => snd r) results in
  let '(mistagged, overused) := count_mistakes mistakes_list in
  report_frequent mistagged ;;;
  ret (QuizReport results total_correct total_attempted mistagged overused).

End Treebank.

Arguments parsed_to_tagged {ParseTree} pos parsed_sents.
Arguments quiz {ParseTree} pos corpus sentences draw.

(** The script itself: it announces the loading of the treebank, then runs
    the quiz on five sentences. *)
Definition main {ParseTree} (pos : ParseTree -> list tagged_token)
  (parsed_sents : list ParseTree) (draw : Z) : M quiz_report :=
  print LoadingTreebank ;;;
  quiz pos parsed_sents 5 draw.

(** ** Vocabulary of the statements *)

(** The test of the checking loop on one zipped triple. *)
Definition mismatch (token : string * string * string) : bool :=
  let '(_, tag, tag_guess) := token in negb (String.eqb tag tag_guess).

Definition tag_and_guess (token : string * string * string)
  : string * string :=
  let '(_, tag, tag_guess) := token in (tag, tag_guess).

Definition the_man_saw_me : tagged_sentence :=
  [("The", "DT"); ("man", "NN"); ("saw", "VBD"); ("me", "PRP"); (".", ".")]
  %string.

(** A leaf the user is asked to tag. *)
Definition taggable (leaf : tagged_token) : bool :=
  negb (String.eqb (snd leaf) "-NONE-").

(** A corpus reader for examples: a tree is the list of its leaf pairs. *)
Definition leaves_of (sent : list tagged_token) : list tagged_token := sent.

(** What one round of the loop shows before it reads: the tokens, then the
    prompt. *)
Definition shown (tokens : list string) : list msg :=
  token_list_out tokens 80 0 ++ [Newline] ++ [Prompt].

(** The answer of the loop to a line with the wrong number of tags. *)
Definition complaint (num_tokens : nat) (line : string) : msg :=
  let n := length (read_guess_tags line) in
  if num_tokens <? n then TooManyTags n else TooFewTags n.

Definition wrong_length (num_tokens : nat) (line : string) : Prop :=
  length (read_guess_tags line) <> num_tokens.

Definition rounds (tokens : list string) (num_tokens : nat)
  (wrongs : list string) : list msg :=
  concat (map (fun l => shown tokens ++ [complaint num_tokens l]) wrongs).

(** The table of the mistakes, printed when there is at least one. *)
Definition mistake_table (incorrect : list (string * string * string))
  : list msg :=
  match incorrect with
  | [] => []
  | _ => MistakeHeader :: MistakeRule
         :: map (fun token : string * string * string =>
                   let '(tok, tag, tag_guess) := token in
                   MistakeRow tok tag tag_guess) incorrect
  end.

(** Following the spec's words: the tag and the guess of a position are both
    folded to upper case and compared. *)
Definition differ_folded (tag guess : string) : bool :=
  negb (String.eqb (PyStr.upper tag) (PyStr.upper guess)).

(** Following the spec's words: the mistakes of a sentence against the
    guesses as the user supplied them, (gold tag, guess as supplied) for each
    position that differs after folding, in token order. *)
Definition mistakes_as_supplied (S : tagged_sentence) (supplied : list string)
  : list (string * string) :=
  map (fun i => (nth i (map snd S) EmptyString, nth i supplied EmptyString))
    (filter (fun i => differ_folded (nth i (map snd S) EmptyString)
                                    (nth i supplied EmptyString))
            (seq 0 (length S))).

(** Filling a dictionary with the occurrences of a list of tags. *)
Definition tally (tags : list string) (d : Py.dict) : Py.dict :=
  fold_left (fun d tag => count_up tag d) tags d.

(** What a dictionary of occurrences holds for a tag: nothing when the tag
    does not occur, its number of occurrences otherwise. *)
Definition counted (tag : string) (tags : list string) : option Z :=
  match count_occ string_dec tags tag with
  | 0 => None
  | n => Some (Z.of_nat n)
  end.

(** The tags of a list at their first occurrence. *)
Definition first_occurrences (tags : list string) : list string :=
  rev (nodup string_dec (rev tags)).

(** [sum(mistagged.values()) / len(mistagged)], as the exact rational. *)
Definition average (mistagged : Py.dict) : Q :=
  inject_Z (Py.sum (Py.values mistagged))
  / inject_Z (Z.of_nat (length mistagged)).

(** The test [mistagged[key] >= average] on an entry. *)
Definition frequent (mistagged : Py.dict) (entry : string * Z) : bool :=
  Qle_bool (average mistagged) (inject_Z (snd entry)).

Definition frequent_row (entry : string * Z) : msg :=
  FrequentRow (fst entry) (snd entry).

(** A result that the grader gave for some sentence and some line of the
    right length. *)
Definition graded (r : sentence_result) : Prop :=
  exists (S : tagged_sentence) (line : string),
    length (read_guess_tags line) = length S
    /\ r = grade S (read_guess_tags line).

(** The tokens of a printout, in the order they were printed. *)
Fixpoint printed_tokens (out : list msg) : list string :=
  match out with
  | [] => []
  | PrintToken token :: out' => token :: printed_tokens out'
  | _ :: out' => printed_tokens out'
  end.

(** The lines of a printout of tokens: [line] holds the tokens printed since
    the last [Newline]. *)
Fixpoint lines_of (out : list msg) (line : list string)
  : list (list string) :=
  match out with
  | [] => [line]
  | Newline :: out' => line :: lines_of out' []
  | PrintToken token :: out' => lines_of out' (line ++ [token])
  | _ :: out' => lines_of out' line
  end.

(** The characters of a line on the terminal: each token and the space that
    [print(token, end = " ")] writes after it. *)
Definition line_width (line : list string) : nat :=
  list_sum (map (fun token => String.length token + 1) line).

(** A string without a blank character. *)
Fixpoint no_space (s : string) : bool :=
  match s with
  | EmptyString => true
  | String c s' => negb (PyStr.isspace c) && no_space s'
  end.

(** A tag as [split] can give it back: not empty, no blank inside. *)
Definition word (s : string) : Prop := s <> EmptyString /\ no_space s = true.

(** A result of [sentence] that comes from some line of the right length. *)
Definition graded_from (sentence : tagged_sentence) (r : sentence_result)
  : Prop :=
  sentence <> []
  /\ exists line,
       length (read_guess_tags line) = length sentence
       /\ r = grade sentence (read_guess_tags line).

(** A line that answers [sentence] with as many tags as it has tokens. *)
Definition answers (sentence : tagged_sentence) (line : string) : Prop :=
  sentence <> [] /\ length (read_guess_tags line) = length sentence.

(** The row of the mistake table for a zipped triple. *)
Definition mistake_row (token : string * string * string) : msg :=
  let '(tok, tag, tag_guess) := token in MistakeRow tok tag tag_guess.

(** The start index that [randint(0, len - number)] returns for a draw. *)
Definition drawn_start (len number draw : Z) : Z :=
  (draw mod (len - number + 1))%Z.

(** The results of answering each sentence with its line. *)
Definition grade_all (tagged : list tagged_sentence) (lines : list string)
  : list sentence_result :=
  map (fun p : tagged_sentence * string =>
         grade (fst p) (read_guess_tags (snd p)))
      (combine tagged lines).

(** What [report_frequent] prints for a dictionary: nothing for the empty
    one, otherwise the heading and the rows of the frequent tags. *)
Definition frequent_report (mistagged : Py.dict) : list msg :=
  match mistagged with
  | [] => []
  | _ => FrequentHeader
         :: map frequent_row (filter (frequent mistagged) mistagged)
  end.

(** What the loop of one sentence reads: the lines it turns down, then the
    line it grades. *)
Definition reading : Type := (list string * string)%type.

(** The input that a list of readings takes, in order. *)
Definition consumed (reads : list reading) : list string :=
  concat (map (fun p : reading => fst p ++ [snd p]) reads).

(** A reading that fits a sentence: the sentence is not empty, every line
    turned down has the wrong number of tags and the last has the right one. *)
Definition read_for (sentence : tagged_sentence) (p : reading) : Prop :=
  sentence <> []
  /\ Forall (wrong_length (length sentence)) (fst p)
  /\ length (read_guess_tags (snd p)) = length sentence.

(** A line of code points below 128. *)
Definition ascii_line (s : string) : bool :=
  PyStr.all_chars (fun c => nat_of_ascii c <? 128) s.

(** The answer "n" followed by the masculine ordinal indicator (186), and
    what [upper] makes of it. *)
Definition n_ordinal : string :=
  String "n" (String (ascii_of_nat 186) EmptyString).

Definition N_ordinal : string :=
  String "N" (String (ascii_of_nat 186) EmptyString).

(** * Properties *)

(** ** Loops that append are filters and maps *)

Section Appending.

Context {A B : Type}.

Lemma fold_left_append_map (f : A -> B) (l : list A) (acc : list B) :
  fold_left (fun acc x => acc ++ [f x]) l acc = acc ++ map f l.
Proof.
  revert acc; induction l as [|x l IH]; intros acc; simpl.
  - now rewrite app_nil_r.
  - rewrite IH. now rewrite <- app_assoc.
Qed.

(** A filter followed by a map, read off position by position. *)
Lemma filter_map_by_position (p : A -> bool) (f : A -> B) (d : A) (l : list A) :
  map f (filter p l)
  = map (fun i => f (nth i l d))
        (filter (fun i => p (nth i l d)) (seq 0 (length l))).
Proof.
  induction l as [|x l IH]; [reflexivity|].
  cbn [length seq filter nth]. rewrite <- seq_shift.
  rewrite filter_map_swap. cbn [nth].
  destruct (p x); cbn [map nth]; rewrite map_map; cbn [nth];
    now rewrite IH.
Qed.

End Appending.

Lemma zip3_nth {A B C} (a : list A) (b : list B) (c : list C) da db dc i :
  length b = length a -> length c = length a ->
  nth i (Py.zip3 a b c) (da, db, dc) = (nth i a da, nth i b db, nth i c dc).
Proof.
  revert b c i; induction a as [|x a IH]; intros [|y b] [|z c] i Hb Hc;
    try discriminate; destruct i; try reflexivity.
  simpl. apply IH; simpl in *; lia.
Qed.

Lemma zip3_length {A B C} (a : list A) (b : list B) (c : list C) :
  length b = length a -> length c = length a ->
  length (Py.zip3 a b c) = length a.
Proof.
  revert b c; induction a as [|x a IH]; intros [|y b] [|z c] Hb Hc;
    try discriminate; try reflexivity.
  simpl. f_equal. apply IH; simpl in *; lia.
Qed.

(** ** Upper case and splitting *)

Module PyStrFacts.
Import PyStr.

Ltac by_cases_on_char c :=
  destruct c as [[] [] [] [] [] [] [] []]; vm_compute; reflexivity.

Lemma isspace_upper_char c : isspace (upper_char c) = isspace c.
Proof. by_cases_on_char c. Qed.

Lemma islower_upper_char c : islower (upper_char c) = false.
Proof. by_cases_on_char c. Qed.

Lemma upper_char_fixed c : islower c = false -> upper_char c = c.
Proof. unfold upper_char. now intros ->. Qed.

Lemma upper_append s t : upper (s ++ t) = (upper s ++ upper t)%string.
Proof. induction s as [|c s IH]; simpl; [reflexivity | now rewrite IH]. Qed.

Lemma is_empty_upper s : is_empty (upper s) = is_empty s.
Proof. now destruct s. Qed.

Lemma no_lower_upper s : no_lower (upper s) = true.
Proof.
  induction s as [|c s IH]; simpl; [reflexivity|].
  now rewrite islower_upper_char, IH.
Qed.

Lemma no_lower_fixed s : no_lower s = true <-> upper s = s.
Proof.
  split.
  - induction s as [|c s IH]; simpl; [reflexivity|].
    intros H. apply andb_true_iff in H as [Hc Hs].
    apply negb_true_iff in Hc. now rewrite (upper_char_fixed _ Hc), IH.
  - intros <-. apply no_lower_upper.
Qed.

(** Folding to upper case moves no blank, so it commutes with [split]. *)
Lemma split_from_upper word s :
  split_from (upper word) (upper s) = map upper (split_from word s).
Proof.
  revert word; induction s as [|c s IH]; intros word; simpl.
  - rewrite is_empty_upper. now destruct (is_empty word).
  - rewrite isspace_upper_char, is_empty_upper.
    destruct (isspace c).
    + destruct (is_empty word); simpl; now rewrite <- IH.
    + rewrite <- IH. now rewrite upper_append.
Qed.

Lemma split_upper s : split (upper s) = map upper (split s).
Proof. exact (split_from_upper EmptyString s). Qed.

End PyStrFacts.

Lemma read_guess_tags_upper line :
  read_guess_tags line = map PyStr.upper (PyStr.split line).
Proof. apply PyStrFacts.split_upper. Qed.

Lemma read_guess_tags_no_lower line :
  Forall (fun g => PyStr.no_lower g = true) (read_guess_tags line).
Proof.
  rewrite read_guess_tags_upper. apply Forall_forall.
  intros g Hg. apply in_map_iff in Hg as (g0 & <- & _).
  apply PyStrFacts.no_lower_upper.
Qed.

(** ** The grader *)

Lemma check_answers_from (l acc : list (string * string * string)) :
  fold_left
    (fun incorrect token =>
       let '(_, tag, tag_guess) := token in
       if negb (String.eqb tag tag_guess) then incorrect ++ [token]
       else incorrect) l acc
  = acc ++ filter mismatch l.
Proof.
  revert acc; induction l as [|[[tok tag] g] l IH]; intros acc; simpl.
  - now rewrite app_nil_r.
  - rewrite IH. destruct (String.eqb tag g); simpl; [reflexivity|].
    now rewrite <- app_assoc.
Qed.

Lemma check_answers_filter l : check_answers l = filter mismatch l.
Proof. exact (check_answers_from l []). Qed.

Lemma grade_unfold (S : tagged_sentence) (G : list string) :
  grade S G
  = ((Z.of_nat (length S) - Z.of_nat (length (incorrect_of S G)))%Z,
     Z.of_nat (length S),
     map tag_and_guess (incorrect_of S G)).
Proof. unfold grade. now rewrite length_map. Qed.

(** The mistakes, read off the positions of the sentence. *)
Lemma mistakes_by_position (S : tagged_sentence) (G : list string) :
  length G = length S ->
  map tag_and_guess (incorrect_of S G)
  = map (fun i => (nth i (map snd S) EmptyString, nth i G EmptyString))
      (filter (fun i => negb (String.eqb (nth i (map snd S) EmptyString)
                                         (nth i G EmptyString)))
              (seq 0 (length S))).
Proof.
  intros HG. unfold incorrect_of. rewrite check_answers_filter.
  set (z := Py.zip3 (map fst S) (map snd S) G).
  assert (Hnth : forall i,
             nth i z (EmptyString, EmptyString, EmptyString)
             = (nth i (map fst S) EmptyString, nth i (map snd S) EmptyString,
                nth i G EmptyString)).
  { intros i. apply zip3_nth; rewrite !length_map; auto. }
  assert (Hlen : length z = length S).
  { unfold z. rewrite zip3_length; rewrite !length_map; auto. }
  rewrite (filter_map_by_position mismatch tag_and_guess
             (EmptyString, EmptyString, EmptyString) z).
  rewrite Hlen.
  erewrite filter_ext; [erewrite map_ext; [reflexivity|]|].
  - intros i. now rewrite Hnth.
  - intros i. now rewrite Hnth.
Qed.

Lemma incorrect_of_length (S : tagged_sentence) (G : list string) :
  length (incorrect_of S G) <= length S.
Proof.
  unfold incorrect_of. rewrite check_answers_filter.
  etransitivity; [apply filter_length_le|].
  generalize (map fst S) at 1. intros toks.
  revert toks G. induction S as [|[tok tag] S IH]; intros [|t toks] [|g G];
    simpl; try lia.
  specialize (IH toks G). lia.
Qed.

(** C1. For a sentence [S] and guesses [G] of the same length, the grader's
    correct count plus the number of its mistakes is the length of [S], its
    total is that length, and the mistakes are the pairs (gold tag, guessed
    tag) of exactly the positions where the two differ, in token order. *)
Theorem grade_correct_plus_mistakes (S : tagged_sentence) (G : list string) :
  length G = length S ->
  let '(correct_count, total_count, mistakes) := grade S G in
  (correct_count + Z.of_nat (length mistakes) = Z.of_nat (length S))%Z
  /\ total_count = Z.of_nat (length S)
  /\ mistakes
     = map (fun i => (nth i (map snd S) EmptyString, nth i G EmptyString))
         (filter (fun i => negb (String.eqb (nth i (map snd S) EmptyString)
                                            (nth i G EmptyString)))
                 (seq 0 (length S))).
Proof.
  intros HG. rewrite grade_unfold.
  split; [|split].
  - rewrite length_map. lia.
  - reflexivity.
  - now apply mistakes_by_position.
Qed.

Lemma grade_correct_plus_mistakes_witness :
  grade the_man_saw_me ["DT"; "VB"; "VBD"; "PRP"; "."]%string
  = (4%Z, 5%Z, [("NN", "VB")]%string)
  /\ (4 + Z.of_nat 1 = Z.of_nat 5)%Z.
Proof.
  split; [reflexivity|].
  pose proof (grade_correct_plus_mistakes the_man_saw_me
                ["DT"; "VB"; "VBD"; "PRP"; "."]%string eq_refl) as H.
  exact (proj1 H).
Defined.

(** ** The sampler *)

Lemma slice_inside {A} (l : list A) (start number : Z) :
  (0 <= start)%Z -> (0 <= number)%Z ->
  (start + number <= Z.of_nat (length l))%Z ->
  Py.slice l start (start + number)
  = firstn (Z.to_nat number) (skipn (Z.to_nat start) l).
Proof.
  intros Hs Hn Hle. unfold Py.slice, Py.clip.
  destruct (Z.ltb_spec start 0); [lia|].
  destruct (Z.ltb_spec (start + number) 0); [lia|].
  rewrite !Z.min_l by lia. do 2 f_equal. lia.
Qed.

Lemma get_sents_unfold {A} (corpus : list A) (number draw : Z) (w : world) :
  get_sents corpus number draw w
  = let out := stdout w ++ [GatheringSentences] in
    match Py.randint 0 (Z.of_nat (length corpus) - number) draw with
    | Raises e => (Raises e, World (stdin w) out)
    | Returns start_point =>
        (Returns (Py.slice corpus start_point (start_point + number)),
         World (stdin w) (out ++ [Index start_point]))
    end.
Proof.
  unfold get_sents, bind, print, lift, ret; simpl.
  now destruct (Py.randint 0 (Z.of_nat (length corpus) - number) draw).
Qed.

(** C6. For a count between 1 and the length of the corpus, the sampler draws
    a start index between 0 and length - count inclusive and returns the
    slice of the corpus from start to start + count: exactly count sentences,
    the i-th of them the sentence start + i of the corpus. *)
Theorem get_sents_window {A} (corpus : list A) (number draw : Z) (w : world) :
  (1 <= number <= Z.of_nat (length corpus))%Z ->
  exists start_point : nat,
    let window := firstn (Z.to_nat number) (skipn start_point corpus) in
    (0 <= Z.of_nat start_point <= Z.of_nat (length corpus) - number)%Z
    /\ get_sents corpus number draw w
       = (Returns window,
          World (stdin w)
                (stdout w ++ [GatheringSentences; Index (Z.of_nat start_point)]))
    /\ length window = Z.to_nat number
    /\ forall i, i < Z.to_nat number ->
         start_point + i < length corpus
         /\ nth_error window i = nth_error corpus (start_point + i).
Proof.
  intros Hn.
  set (len := Z.of_nat (length corpus)) in *.
  pose proof (Z.mod_pos_bound draw (len - number - 0 + 1) ltac:(lia)) as Hm.
  set (start := (0 + draw mod (len - number - 0 + 1))%Z) in *.
  exists (Z.to_nat start). cbv zeta.
  assert (Hstart : Z.of_nat (Z.to_nat start) = start) by (unfold start; lia).
  rewrite Hstart.
  split; [unfold start; lia|].
  split; [|split].
  - rewrite get_sents_unfold. unfold Py.randint. fold len.
    destruct (Z.ltb_spec (len - number) 0); [lia|]. fold start. cbv zeta.
    rewrite slice_inside by (unfold start; fold len; lia).
    now rewrite <- app_assoc.
  - rewrite length_firstn, length_skipn. unfold start, len in *. lia.
  - intros i Hi. split; [unfold start, len in *; lia|].
    rewrite nth_error_firstn, nth_error_skipn.
    now destruct (Nat.ltb_spec i (Z.to_nat number)); [|lia].
Qed.

Lemma get_sents_window_witness :
  exists start_point : nat,
    get_sents [10; 20; 30; 40] 2 7 (World [] [])
    = (Returns (firstn 2 (skipn start_point [10; 20; 30; 40])),
       World [] [GatheringSentences; Index (Z.of_nat start_point)]).
Proof.
  destruct (get_sents_window [10; 20; 30; 40] 2 7 (World [] [])
              ltac:(simpl; lia)) as (start_point & _ & H & _).
  exists start_point. exact H.
Defined.

(** Every start index of the range is the choice of some draw. *)
Lemma get_sents_any_start {A} (corpus : list A) (number : Z) (w : world)
  (start_point : Z) :
  (0 <= start_point <= Z.of_nat (length corpus) - number)%Z ->
  fst (get_sents corpus number start_point w)
  = Returns (Py.slice corpus start_point (start_point + number)).
Proof.
  intros H. rewrite get_sents_unfold. unfold Py.randint.
  destruct (Z.ltb_spec (Z.of_nat (length corpus) - number) 0); [lia|].
  cbv zeta. rewrite Z.mod_small by lia. reflexivity.
Qed.

(** C3, on the code: a count above the length of the corpus makes the random
    draw fail with ValueError before any sentence is taken, once and for the
    caller to see; a count of zero or below raises nothing and returns a
    slice of the corpus. *)
Theorem get_sents_count_out_of_range {A} (corpus : list A)
  (number draw : Z) (w : world) :
  ((Z.of_nat (length corpus) < number)%Z ->
     get_sents corpus number draw w
     = (Raises ValueError, World (stdin w) (stdout w ++ [GatheringSentences])))
  /\ ((number <= 0)%Z ->
        exists start_point,
          (0 <= start_point <= Z.of_nat (length corpus) - number)%Z
          /\ fst (get_sents corpus number draw w)
             = Returns (Py.slice corpus start_point (start_point + number))).
Proof.
  split; intros Hn; rewrite get_sents_unfold; unfold Py.randint.
  - now destruct (Z.ltb_spec (Z.of_nat (length corpus) - number) 0); [|lia].
  - destruct (Z.ltb_spec (Z.of_nat (length corpus) - number) 0); [lia|].
    eexists; split; [|reflexivity].
    pose proof (Z.mod_pos_bound draw
                  (Z.of_nat (length corpus) - number - 0 + 1) ltac:(lia)).
    lia.
Qed.

Lemma get_sents_count_out_of_range_witness :
  get_sents [10; 20; 30] 4 0 (World [] [])
  = (Raises ValueError, World [] [GatheringSentences])
  /\ exists start_point,
       fst (get_sents [10; 20; 30] (-1) 0 (World [] []))
       = Returns (Py.slice [10; 20; 30] start_point (start_point + -1)).
Proof.
  split.
  - apply (proj1 (get_sents_count_out_of_range [10; 20; 30] 4 0 (World [] []))).
    simpl; lia.
  - destruct (proj2 (get_sents_count_out_of_range [10; 20; 30] (-1) 0
                       (World [] [])) ltac:(lia)) as (s & _ & H).
    exists s. exact H.
Defined.

(** C3 as stated fails: with a count of zero, or of -1, the sampler raises
    nothing, and with -1 it even returns sentences. *)
Lemma get_sents_nonpositive_count_no_error :
  ~ (forall (corpus : list nat) (number draw : Z) (w : world),
        (number <= 0 \/ Z.of_nat (length corpus) < number)%Z ->
        exists e, fst (get_sents corpus number draw w) = Raises e)
  /\ fst (get_sents [10; 20; 30] 0 0 (World [] [])) = Returns []
  /\ fst (get_sents [10; 20; 30] (-1) 0 (World [] [])) = Returns [10; 20].
Proof.
  split; [|split; reflexivity].
  intros H.
  destruct (H [10; 20; 30] 0%Z 0%Z (World [] []) ltac:(lia)) as [e He].
  discriminate He.
Qed.

(** ** The normaliser *)

Lemma keep_tagged_from (leaves : list tagged_token) (acc : tagged_sentence) :
  fold_left
    (fun tagged_sent leaf =>
       let '(token, tagged) := leaf in
       if negb (String.eqb tagged "-NONE-") then tagged_sent ++ [(token, tagged)]
       else tagged_sent) leaves acc
  = acc ++ filter taggable leaves.
Proof.
  revert acc; induction leaves as [|[token tagged] leaves IH]; intros acc; simpl.
  - now rewrite app_nil_r.
  - rewrite IH. unfold taggable at 2; simpl.
    destruct (String.eqb tagged "-NONE-"); simpl; [reflexivity|].
    now rewrite <- app_assoc.
Qed.

Lemma keep_tagged_filter leaves : keep_tagged leaves = filter taggable leaves.
Proof. exact (keep_tagged_from leaves []). Qed.

Lemma parsed_to_tagged_map {ParseTree} (pos : ParseTree -> list tagged_token)
  (parsed_sents : list ParseTree) :
  parsed_to_tagged pos parsed_sents
  = map (fun sent => filter taggable (pos sent)) parsed_sents.
Proof.
  unfold parsed_to_tagged.
  rewrite (fold_left_append_map (fun sent => keep_tagged (pos sent))).
  simpl. apply map_ext. intros sent. apply keep_tagged_filter.
Qed.

(** C5. [parsed_to_tagged] returns one tagged sentence per tree, in the order
    of the trees; the sentence of a tree is the list of its leaf pairs whose
    tag is not "-NONE-", in the order of the leaves, so the i-th taggable leaf
    is its i-th entry; a tree without a taggable leaf gives the empty
    sentence, and nothing is raised. *)
Theorem parsed_to_tagged_one_per_tree {ParseTree}
  (pos : ParseTree -> list tagged_token) (parsed_sents : list ParseTree) :
  length (parsed_to_tagged pos parsed_sents) = length parsed_sents
  /\ forall i sent,
       nth_error parsed_sents i = Some sent ->
       exists tagged_sent,
         nth_error (parsed_to_tagged pos parsed_sents) i = Some tagged_sent
         /\ tagged_sent = filter taggable (pos sent)
         /\ (forall leaf, In leaf tagged_sent
                          <-> In leaf (pos sent) /\ snd leaf <> "-NONE-"%string)
         /\ ((forall leaf, In leaf (pos sent) -> snd leaf = "-NONE-"%string) ->
             tagged_sent = []).
Proof.
  rewrite parsed_to_tagged_map. split; [apply length_map|].
  intros i sent Hi. exists (filter taggable (pos sent)).
  split; [now rewrite nth_error_map, Hi|].
  split; [reflexivity|].
  split.
  - intros leaf. rewrite filter_In. unfold taggable.
    rewrite negb_true_iff, String.eqb_neq. reflexivity.
  - intros Hnone. induction (pos sent) as [|leaf leaves IH]; [reflexivity|].
    simpl. unfold taggable at 1.
    rewrite (Hnone leaf (or_introl eq_refl)). simpl.
    apply IH. intros l Hl. apply Hnone. now right.
Qed.

Lemma parsed_to_tagged_one_per_tree_witness :
  parsed_to_tagged leaves_of
    [[("*", "-NONE-")]; [("He", "PRP"); ("*T*-1", "-NONE-"); ("left", "VBD")]]
    %string
  = [[]; [("He", "PRP"); ("left", "VBD")]]%string
  /\ exists tagged_sent,
       nth_error (parsed_to_tagged leaves_of [[("*", "-NONE-")%string]]) 0
       = Some tagged_sent
       /\ tagged_sent = [].
Proof.
  split; [reflexivity|].
  destruct (proj2 (parsed_to_tagged_one_per_tree leaves_of
                     [[("*", "-NONE-")%string]]) 0 _ eq_refl)
    as (tagged_sent & Hnth & _ & _ & Hempty).
  exists tagged_sent. split; [exact Hnth|].
  apply Hempty. intros leaf [<-|[]]. reflexivity.
Defined.

(** ** The retry loop of sentence_quiz *)

(** The recursion on the lines is the loop of the source: print the tokens,
    read a line, return or complain and go round again. *)
Lemma ask_guess_tags_unfold tokens num_tokens (w : world) :
  ask_guess_tags tokens num_tokens w
  = (token_list_print tokens 80 ;;;
     line <- input ;;
     let guess_tags := read_guess_tags line in
     if length guess_tags =? num_tokens then ret guess_tags
     else if num_tokens <? length guess_tags
     then print (TooManyTags (length guess_tags)) ;;;
          ask_guess_tags tokens num_tokens
     else print (TooFewTags (length guess_tags)) ;;;
          ask_guess_tags tokens num_tokens) w.
Proof.
  destruct w as [lines out]. unfold ask_guess_tags, bind, token_list_print,
    input, print, ret. cbn [stdin stdout].
  assert (E : (out ++ token_list_out tokens 80 0 ++ [Newline]) ++ [Prompt]
              = out ++ token_list_out tokens 80 0 ++ [Newline] ++ [Prompt])
    by now rewrite <- !app_assoc.
  rewrite E.
  destruct lines as [|line rest]; cbn [until_all_tagged]; [reflexivity|].
  destruct (length (read_guess_tags line) =? num_tokens); [reflexivity|].
  destruct (num_tokens <? length (read_guess_tags line)); reflexivity.
Qed.

Lemma until_all_tagged_retries tokens num_tokens wrongs line rest out :
  Forall (wrong_length num_tokens) wrongs ->
  length (read_guess_tags line) = num_tokens ->
  until_all_tagged tokens num_tokens (wrongs ++ line :: rest) out
  = (Returns (read_guess_tags line),
     World rest (out ++ rounds tokens num_tokens wrongs ++ shown tokens)).
Proof.
  intros Hwrongs Hline. revert out.
  induction Hwrongs as [|l wrongs Hl _ IH]; intros out.
  - cbn [app until_all_tagged rounds map concat].
    apply Nat.eqb_eq in Hline. rewrite Hline. reflexivity.
  - cbn [app until_all_tagged].
    apply Nat.eqb_neq in Hl. rewrite Hl.
    assert (Hround : forall m,
               until_all_tagged tokens num_tokens (wrongs ++ line :: rest)
                 ((out ++ token_list_out tokens 80 0 ++ [Newline] ++ [Prompt])
                    ++ [m])
               = (Returns (read_guess_tags line),
                  World rest
                    (out ++ (shown tokens ++ [m])
                         ++ rounds tokens num_tokens wrongs ++ shown tokens))).
    { intros m. rewrite IH. unfold shown. now rewrite <- !app_assoc. }
    unfold rounds at 1. cbn [map concat]. fold (rounds tokens num_tokens wrongs).
    unfold complaint.
    rewrite <- (app_assoc (shown tokens ++ _)).
    destruct (num_tokens <? length (read_guess_tags l)); apply Hround.
Qed.

Lemma until_all_tagged_eof tokens num_tokens lines out :
  Forall (wrong_length num_tokens) lines ->
  until_all_tagged tokens num_tokens lines out
  = (Raises EOFError,
     World [] (out ++ rounds tokens num_tokens lines ++ shown tokens)).
Proof.
  intros Hwrongs. revert out.
  induction Hwrongs as [|l wrongs Hl _ IH]; intros out.
  - reflexivity.
  - cbn [until_all_tagged].
    apply Nat.eqb_neq in Hl. rewrite Hl.
    unfold rounds. cbn [map concat]. fold (rounds tokens num_tokens wrongs).
    unfold complaint.
    destruct (num_tokens <? length (read_guess_tags l)); rewrite IH;
      unfold shown; now rewrite <- !app_assoc.
Qed.

Lemma until_all_tagged_returns tokens num_tokens lines out guess_tags w' :
  until_all_tagged tokens num_tokens lines out = (Returns guess_tags, w') ->
  exists wrongs line,
    lines = wrongs ++ line :: stdin w'
    /\ Forall (wrong_length num_tokens) wrongs
    /\ length (read_guess_tags line) = num_tokens
    /\ guess_tags = read_guess_tags line.
Proof.
  revert out; induction lines as [|l lines IH]; intros out H;
    cbn [until_all_tagged] in H; [discriminate|].
  destruct (Nat.eqb_spec (length (read_guess_tags l)) num_tokens) as [He|Hne].
  - injection H as <- <-. exists [], l. now repeat split.
  - assert (Hrec : exists out',
               until_all_tagged tokens num_tokens lines out'
               = (Returns guess_tags, w')).
    { destruct (num_tokens <? length (read_guess_tags l)); eauto. }
    destruct Hrec as [out' Hrec].
    destruct (IH _ Hrec) as (wrongs & line & -> & Hw & Hlen & ->).
    exists (l :: wrongs), line. repeat split; auto.
Qed.

Lemma for_each_print {A} (body : A -> M unit) (f : A -> msg) (l : list A)
  (w : world) :
  (forall x, body x = print (f x)) ->
  for_each l body w = (Returns tt, World (stdin w) (stdout w ++ map f l)).
Proof.
  intros Hbody. revert w; induction l as [|x l IH]; intros [lines out]; simpl.
  - unfold ret. now rewrite app_nil_r.
  - rewrite Hbody. unfold bind, print. cbn [stdin stdout].
    rewrite IH. cbn [stdin stdout]. now rewrite <- app_assoc.
Qed.

(** [sentence_quiz] after its loop: an empty sentence divides by zero, any
    other is graded and reported. *)
Lemma sentence_quiz_unfold (S : tagged_sentence) (w : world) :
  sentence_quiz S w
  = match until_all_tagged (map fst S) (length S) (stdin w)
            (stdout w ++ [TotalTokens (length S)]) with
    | (Raises e, w') => (Raises e, w')
    | (Returns guess_tags, w') =>
        match S with
        | [] => (Raises ZeroDivisionError, w')
        | _ =>
            let incorrect := incorrect_of S guess_tags in
            let correct :=
              (Z.of_nat (length S) - Z.of_nat (length incorrect))%Z in
            (Returns (grade S guess_tags),
             World (stdin w')
                   (stdout w' ++ Score correct (length S)
                              :: mistake_table incorrect))
        end
    end.
Proof.
  unfold tagged_sentence, tagged_token in *.
  unfold sentence_quiz. rewrite !length_map.
  unfold bind at 1. unfold print at 1. unfold bind at 1.
  unfold ask_guess_tags at 1. cbn [stdin stdout].
  destruct (until_all_tagged (map fst S) (length S) (stdin w)
              (stdout w ++ [TotalTokens (length S)])) as [[G|e] w'];
    [|reflexivity].
  unfold bind at 1, lift, Py.true_div.
  destruct S as [|t S']; [reflexivity|].
  set (S := t :: S').
  replace (Z.of_nat (length S) =? 0)%Z with false
    by (symmetry; apply Z.eqb_neq; unfold S; simpl; lia).
  unfold bind at 1, print at 1. unfold bind at 1. cbn zeta.
  cbn [stdin stdout].
  destruct (incorrect_of S G) as [|x inc] eqn:Hinc.
  - cbn [length Nat.ltb Nat.leb]. unfold ret at 1. cbn [mistake_table].
    unfold ret. reflexivity.
  - cbn [length Nat.ltb Nat.leb mistake_table].
    unfold bind at 1, print at 1. unfold bind at 1, print at 1.
    cbn [stdin stdout].
    rewrite (for_each_print _
               (fun token : string * string * string =>
                  let '(tok, tag, tag_guess) := token in
                  MistakeRow tok tag tag_guess))
      by (intros [[tok tag] g]; reflexivity).
    cbn [stdin stdout]. unfold ret.
    rewrite <- !app_assoc. reflexivity.
Qed.

Lemma wrong_length_complaint num_tokens line :
  wrong_length num_tokens line ->
  let n := length (read_guess_tags line) in
  (num_tokens < n /\ complaint num_tokens line = TooManyTags n)
  \/ (n < num_tokens /\ complaint num_tokens line = TooFewTags n).
Proof.
  unfold wrong_length, complaint. intros Hw. cbv zeta.
  destruct (Nat.ltb_spec num_tokens (length (read_guess_tags line)));
    [left | right]; split; auto; lia.
Qed.



(** C4, on the code: the percentage of an empty sentence divides by zero. Once
    a line without tags has passed the length check, [sentence_quiz] raises
    ZeroDivisionError before it prints a score, so it never returns a result
    for an empty sentence; the final score of [quiz] divides by the total in
    the same unguarded way. *)
Theorem sentence_quiz_empty_sentence_divides_by_zero :
  (forall rest out,
      sentence_quiz [] (World (EmptyString :: rest) out)
      = (Raises ZeroDivisionError,
         World rest (out ++ [TotalTokens 0; Newline; Prompt])))
  /\ (forall w r w', sentence_quiz [] w <> (Returns r, w'))
  /\ fst (quiz leaves_of [[("*", "-NONE-")%string]] 1 0 (World [EmptyString] []))
     = Raises ZeroDivisionError
  /\ fst (quiz leaves_of [the_man_saw_me] 0 0 (World [] []))
     = Raises ZeroDivisionError.
Proof.
  split; [|split; [|split; reflexivity]].
  - intros rest out. rewrite sentence_quiz_unfold. cbn.
    now rewrite <- app_assoc.
  - intros w r w' H. rewrite sentence_quiz_unfold in H.
    destruct (until_all_tagged _ _ _ _) as [[G|e] w1]; discriminate.
Qed.

(** ** Letter case in grading *)

Lemma nth_read_guess_tags line i :
  nth i (read_guess_tags line) EmptyString
  = PyStr.upper (nth i (PyStr.split line) EmptyString).
Proof.
  rewrite read_guess_tags_upper.
  exact (map_nth PyStr.upper (PyStr.split line) EmptyString i).
Qed.

Lemma length_read_guess_tags line :
  length (read_guess_tags line) = length (PyStr.split line).
Proof. rewrite read_guess_tags_upper. apply length_map. Qed.

Lemma nth_upper_tags (S : tagged_sentence) i :
  Forall (fun t => PyStr.upper (snd t) = snd t) S ->
  PyStr.upper (nth i (map snd S) EmptyString) = nth i (map snd S) EmptyString.
Proof.
  intros HS. revert i. induction HS as [|t S Ht _ IH]; intros [|i]; simpl; auto.
Qed.

(** C2, on the code: only the user's line is folded to upper case, the gold
    tags are compared as the corpus has them. Two lines that differ only in
    letter case are graded alike on the same sentence; and on a sentence
    whose gold tags are upper case, the mistakes are exactly the positions
    where gold tag and typed guess differ after folding both. *)
Theorem grade_case_insensitive_in_guesses (S : tagged_sentence)
  (line line' : string) :
  PyStr.upper line = PyStr.upper line' ->
  grade S (read_guess_tags line) = grade S (read_guess_tags line')
  /\ (Forall (fun t => PyStr.upper (snd t) = snd t) S ->
      length (PyStr.split line) = length S ->
      snd (grade S (read_guess_tags line))
      = map (fun i => (nth i (map snd S) EmptyString,
                       PyStr.upper (nth i (PyStr.split line) EmptyString)))
          (filter (fun i => differ_folded (nth i (map snd S) EmptyString)
                                          (nth i (PyStr.split line) EmptyString))
                  (seq 0 (length S)))).
Proof.
  intros Hup. split.
  - unfold read_guess_tags. now rewrite Hup.
  - intros Hgold Hlen. rewrite grade_unfold. cbn [snd].
    rewrite mistakes_by_position by now rewrite length_read_guess_tags.
    erewrite filter_ext; [erewrite map_ext; [reflexivity|]|].
    + intros i. now rewrite nth_read_guess_tags.
    + intros i. unfold differ_folded.
      now rewrite nth_read_guess_tags, (nth_upper_tags S i Hgold).
Qed.

Lemma grade_case_insensitive_in_guesses_witness :
  grade the_man_saw_me (read_guess_tags "dt nn vbd prp .")
  = grade the_man_saw_me (read_guess_tags "DT nN vbd PRp .")
  /\ snd (grade the_man_saw_me (read_guess_tags "dt vb vbd prp ."))
     = [("NN", "VB")]%string.
Proof.
  split.
  - exact (proj1 (grade_case_insensitive_in_guesses the_man_saw_me
                    "dt nn vbd prp ." "DT nN vbd PRp ." eq_refl)).
  - rewrite (proj2 (grade_case_insensitive_in_guesses the_man_saw_me
                      "dt vb vbd prp ." "dt vb vbd prp ." eq_refl)).
    + reflexivity.
    + repeat constructor.
    + reflexivity.
Defined.

(** C2 as stated fails: a gold tag in lower case is not folded, so the same
    answer is right against "NN" and wrong against "nn". *)
Lemma grade_not_case_insensitive_in_gold_tags :
  ~ (forall (S S' : tagged_sentence) (line line' : string),
        map fst S = map fst S' ->
        map (fun t => PyStr.upper (snd t)) S
        = map (fun t => PyStr.upper (snd t)) S' ->
        PyStr.upper line = PyStr.upper line' ->
        length (read_guess_tags line) = length S ->
        fst (grade S (read_guess_tags line))
        = fst (grade S' (read_guess_tags line')))
  /\ grade [("man", "nn")%string] (read_guess_tags "nn")
     = (0%Z, 1%Z, [("nn", "NN")%string])
  /\ grade [("man", "NN")%string] (read_guess_tags "nn") = (1%Z, 1%Z, []).
Proof.
  split; [|split; reflexivity].
  intros H.
  specialize (H [("man", "nn")%string] [("man", "NN")%string]
                "nn"%string "nn"%string eq_refl eq_refl eq_refl eq_refl).
  discriminate H.
Qed.

(** C7, on the code: the mistake recorded for a position is the gold tag as
    the corpus has it, paired with the guess folded to upper case (the whole
    line is folded before it is split), for each position where the two
    differ, in token order. *)
Theorem mistakes_keep_gold_tag_and_folded_guess (S : tagged_sentence)
  (line : string) :
  length (PyStr.split line) = length S ->
  snd (grade S (read_guess_tags line))
  = map (fun i => (nth i (map snd S) EmptyString,
                   PyStr.upper (nth i (PyStr.split line) EmptyString)))
      (filter (fun i =>
                 negb (String.eqb
                         (nth i (map snd S) EmptyString)
                         (PyStr.upper (nth i (PyStr.split line) EmptyString))))
              (seq 0 (length S))).
Proof.
  intros Hlen. rewrite grade_unfold. cbn [snd].
  rewrite mistakes_by_position by now rewrite length_read_guess_tags.
  erewrite filter_ext; [erewrite map_ext; [reflexivity|]|];
    intros i; now rewrite nth_read_guess_tags.
Qed.

Lemma mistakes_keep_gold_tag_and_folded_guess_witness :
  snd (grade [("man", "nn"); ("saw", "VBD")]%string
         (read_guess_tags "vb vbd"))
  = [("nn", "VB")]%string.
Proof.
  rewrite (mistakes_keep_gold_tag_and_folded_guess
             [("man", "nn"); ("saw", "VBD")]%string "vb vbd" eq_refl).
  reflexivity.
Defined.

(** C7 as stated fails: the user typed "vb", the mistake holds "VB". *)
Lemma mistakes_do_not_keep_guess_as_supplied :
  snd (grade the_man_saw_me (read_guess_tags "DT vb VBD PRP ."))
  <> mistakes_as_supplied the_man_saw_me (PyStr.split "DT vb VBD PRP .")
  /\ snd (grade the_man_saw_me (read_guess_tags "DT vb VBD PRP ."))
     = [("NN", "VB")]%string
  /\ mistakes_as_supplied the_man_saw_me (PyStr.split "DT vb VBD PRP .")
     = [("NN", "vb")]%string.
Proof.
  split; [|split; reflexivity].
  vm_compute. discriminate.
Qed.

(** ** Counting the mistakes *)

Module DictFacts.
Import Py.

Lemma get_set_same k v d : get k (set k v d) = Some v.
Proof.
  induction d as [|[k' v'] d IH]; simpl.
  - now rewrite String.eqb_refl.
  - destruct (String.eqb k k') eqn:E; simpl; rewrite E; auto.
Qed.

Lemma get_set_other k k' v d : k' <> k -> get k' (set k v d) = get k' d.
Proof.
  intros Hne. induction d as [|[k0 v0] d IH]; simpl.
  - apply String.eqb_neq in Hne. now rewrite Hne.
  - destruct (String.eqb k k0) eqn:E; simpl.
    + apply String.eqb_eq in E. subst k0.
      apply String.eqb_neq in Hne. now rewrite Hne.
    + now rewrite IH.
Qed.

Lemma keys_set k v d :
  keys (set k v d) = match get k d with Some _ => keys d | None => keys d ++ [k] end.
Proof.
  induction d as [|[k' v'] d IH]; simpl; [reflexivity|].
  destruct (String.eqb k k') eqn:E; simpl; [reflexivity|].
  rewrite IH. now destruct (get k d).
Qed.

Lemma get_count_up_same k d :
  get k (count_up k d)
  = Some (match get k d with Some n => n + 1 | None => 1 end)%Z.
Proof. unfold count_up. destruct (get k d); apply get_set_same. Qed.

Lemma get_count_up_other k k' d : k' <> k -> get k' (count_up k d) = get k' d.
Proof. unfold count_up. destruct (get k d); apply get_set_other. Qed.

Lemma keys_count_up k d :
  keys (count_up k d) = match get k d with Some _ => keys d | None => keys d ++ [k] end.
Proof.
  unfold count_up. destruct (get k d) eqn:E; rewrite keys_set, E; reflexivity.
Qed.

Lemma tally_snoc tags tag d : tally (tags ++ [tag]) d = count_up tag (tally tags d).
Proof. unfold tally. now rewrite fold_left_app. Qed.

Lemma counted_snoc_same tag tags :
  counted tag (tags ++ [tag])
  = Some (match counted tag tags with Some n => n + 1 | None => 1 end)%Z.
Proof.
  unfold counted. rewrite count_occ_app. simpl.
  destruct (string_dec tag tag); [|contradiction].
  rewrite Nat.add_1_r.
  destruct (count_occ string_dec tags tag); f_equal; lia.
Qed.

Lemma counted_snoc_other tag tag' tags :
  tag' <> tag -> counted tag' (tags ++ [tag]) = counted tag' tags.
Proof.
  intros Hne. unfold counted. rewrite count_occ_app. simpl.
  destruct (string_dec tag tag'); [congruence|]. now rewrite Nat.add_0_r.
Qed.

(** A dictionary filled from empty holds, for each tag, the number of its
    occurrences. *)
Lemma get_tally tags tag : get tag (tally tags []) = counted tag tags.
Proof.
  induction tags as [|t tags IH] using rev_ind; [reflexivity|].
  rewrite tally_snoc. destruct (string_dec tag t) as [->|Hne].
  - now rewrite get_count_up_same, counted_snoc_same, IH.
  - now rewrite get_count_up_other, counted_snoc_other by assumption.
Qed.

Lemma counted_none tag tags : counted tag tags = None <-> ~ In tag tags.
Proof.
  unfold counted. rewrite (count_occ_not_In string_dec).
  destruct (count_occ string_dec tags tag); split; congruence.
Qed.

(** Its keys are the tags in the order of their first occurrence. *)
Lemma keys_tally tags : keys (tally tags []) = first_occurrences tags.
Proof.
  unfold first_occurrences.
  induction tags as [|t tags IH] using rev_ind; [reflexivity|].
  rewrite tally_snoc, keys_count_up, rev_app_distr. cbn [rev app nodup].
  rewrite IH, get_tally.
  destruct (in_dec string_dec t (rev tags)) as [Hin|Hnin].
  - destruct (counted t tags) eqn:E; [reflexivity|].
    apply counted_none in E. rewrite <- in_rev in Hin. contradiction.
  - destruct (counted t tags) eqn:E; [|reflexivity].
    exfalso. apply Hnin. rewrite <- in_rev.
    destruct (in_dec string_dec t tags) as [H|H]; [exact H|].
    apply counted_none in H. congruence.
Qed.

Lemma first_occurrences_NoDup tags : NoDup (first_occurrences tags).
Proof. apply NoDup_rev, NoDup_nodup. Qed.

Lemma first_occurrences_In tag tags :
  In tag (first_occurrences tags) <-> In tag tags.
Proof.
  unfold first_occurrences. now rewrite <- in_rev, nodup_In, <- in_rev.
Qed.

End DictFacts.

(** The two dictionaries of [quiz] are the tallies of the gold tags and of the
    guessed tags of all the mistakes, in order. *)
Lemma count_mistakes_tally (mistakes_list : list (list (string * string))) :
  count_mistakes mistakes_list
  = (tally (map fst (concat mistakes_list)) [],
     tally (map snd (concat mistakes_list)) []).
Proof.
  unfold count_mistakes.
  assert (Hinner : forall (mistakes : list (string * string)) d1 d2,
             fold_left
               (fun (counts : Py.dict * Py.dict) (m : string * string) =>
                  let '(mistagged, overused) := counts in
                  let '(correct, mistake) := m in
                  (count_up correct mistagged, count_up mistake overused))
               mistakes (d1, d2)
             = (tally (map fst mistakes) d1, tally (map snd mistakes) d2)).
  { induction mistakes as [|[c m] ms IH]; intros d1 d2; [reflexivity|].
    simpl. now rewrite IH. }
  assert (Houter : forall l d1 d2,
             fold_left
               (fun counts mistakes =>
                  fold_left
                    (fun (counts : Py.dict * Py.dict) (m : string * string) =>
                       let '(mistagged, overused) := counts in
                       let '(correct, mistake) := m in
                       (count_up correct mistagged, count_up mistake overused))
                    mistakes counts) l (d1, d2)
             = (tally (map fst (concat l)) d1, tally (map snd (concat l)) d2)).
  { induction l as [|ms l IH]; intros d1 d2; [reflexivity|].
    cbn [fold_left concat]. rewrite Hinner, IH, !map_app.
    unfold tally. now rewrite !fold_left_app. }
  apply Houter.
Qed.

(** ** The report on frequently mistagged tags *)

(** The comparison with the average is one of integers: count times the
    number of tags against the sum of the counts. *)
Lemma frequent_exact (mistagged : Py.dict) (entry : string * Z) :
  mistagged <> [] ->
  frequent mistagged entry
  = (Py.sum (Py.values mistagged)
     <=? snd entry * Z.of_nat (length mistagged))%Z.
Proof.
  intros Hne. unfold frequent, average.
  set (s := Py.sum (Py.values mistagged)). set (c := snd entry).
  assert (Hn : (0 < Z.of_nat (length mistagged))%Z)
    by (destruct mistagged; [contradiction | simpl; lia]).
  set (n := Z.of_nat (length mistagged)) in *.
  apply eq_true_iff_eq. rewrite Qle_bool_iff, Z.leb_le.
  destruct n as [|p|p]; try lia.
  unfold Qle, Qdiv, Qmult, Qinv, inject_Z; simpl. lia.
Qed.

Lemma for_each_print_if {A} (body : A -> M unit) (p : A -> bool)
  (f : A -> msg) (l : list A) (w : world) :
  (forall x, body x = if p x then print (f x) else ret tt) ->
  for_each l body w
  = (Returns tt, World (stdin w) (stdout w ++ map f (filter p l))).
Proof.
  intros Hbody. revert w; induction l as [|x l IH]; intros [lines out]; simpl.
  - unfold ret. now rewrite app_nil_r.
  - rewrite Hbody. unfold bind. destruct (p x).
    + unfold print. cbn [stdin stdout]. rewrite IH. cbn [stdin stdout map].
      now rewrite <- app_assoc.
    + unfold ret. now rewrite IH.
Qed.

Lemma report_frequent_unfold (mistagged : Py.dict) (w : world) :
  report_frequent mistagged w
  = match mistagged with
    | [] => (Returns tt, w)
    | _ => (Returns tt,
            World (stdin w)
                  (stdout w ++ FrequentHeader
                     :: map frequent_row (filter (frequent mistagged) mistagged)))
    end.
Proof.
  unfold report_frequent. destruct mistagged as [|e d]; [reflexivity|].
  set (m := e :: d).
  replace (0 <? length m) with true by reflexivity.
  unfold bind at 1, lift, Py.true_div.
  replace (Z.of_nat (length m) =? 0)%Z with false
    by (symmetry; apply Z.eqb_neq; unfold m; simpl; lia).
  unfold bind at 1, print at 1. cbn [stdin stdout].
  rewrite (for_each_print_if _ (frequent m) frequent_row)
    by (intros [key count]; reflexivity).
  cbn [stdin stdout]. now rewrite <- app_assoc.
Qed.

(** ** The orchestrator *)

Lemma sentence_quiz_returns (S : tagged_sentence) w r w' :
  sentence_quiz S w = (Returns r, w') ->
  exists wrongs line,
    stdin w = wrongs ++ line :: stdin w'
    /\ Forall (wrong_length (length S)) wrongs
    /\ length (read_guess_tags line) = length S
    /\ r = grade S (read_guess_tags line).
Proof.
  intros H. rewrite sentence_quiz_unfold in H.
  destruct (until_all_tagged (map fst S) (length S) (stdin w)
              (stdout w ++ [TotalTokens (length S)]))
    as [[G|e] w1] eqn:Hloop; [|discriminate].
  apply until_all_tagged_returns in Hloop
    as (wrongs & line & Hin & Hw & Hl & ->).
  destruct S as [|t S']; [discriminate|].
  cbv zeta in H. injection H as <- <-. cbn [stdin].
  exists wrongs, line. auto.
Qed.

Lemma quiz_sentences_graded tagged sent_num acc w rs w' :
  quiz_sentences tagged sent_num acc w = (Returns rs, w') ->
  Forall graded acc -> Forall graded rs.
Proof.
  revert sent_num acc w.
  induction tagged as [|sentence rest IH]; intros sent_num acc w H Hacc.
  - injection H as <- _. exact Hacc.
  - cbn [quiz_sentences] in H. unfold bind at 1, print at 1 in H.
    unfold bind at 1 in H.
    destruct (sentence_quiz sentence _) as [[r|e] w1] eqn:Hq; [|discriminate].
    apply (IH _ _ _ H). apply Forall_app. split; [exact Hacc|].
    constructor; [|constructor].
    apply sentence_quiz_returns in Hq as (wrongs & line & _ & _ & Hl & ->).
    now exists sentence, line.
Qed.

Lemma zip3_In_guess {A B C} (a : list A) (b : list B) (c : list C) x y z :
  In (x, y, z) (Py.zip3 a b c) -> In z c.
Proof.
  revert b c; induction a as [|x0 a IH]; intros [|y0 b] [|z0 c]; simpl;
    try tauto.
  intros [E|H]; [injection E as _ _ ->; now left | right; eauto].
Qed.

Lemma grade_mistakes_guess (S : tagged_sentence) (G : list string) m :
  In m (snd (grade S G)) -> In (snd m) G.
Proof.
  rewrite grade_unfold. cbn [snd]. intros H.
  apply in_map_iff in H as ([[tok tag] g] & <- & Hin).
  unfold incorrect_of in Hin. rewrite check_answers_filter in Hin.
  apply filter_In in Hin as [Hin _].
  exact (zip3_In_guess _ _ _ _ _ _ Hin).
Qed.

Lemma graded_guesses_upper r :
  graded r -> Forall (fun m => PyStr.no_lower (snd m) = true) (snd r).
Proof.
  intros (S & line & _ & ->). apply Forall_forall. intros m Hm.
  apply grade_mistakes_guess in Hm.
  pose proof (read_guess_tags_no_lower line) as Hall.
  rewrite Forall_forall in Hall. now apply Hall.
Qed.

(** The steps of a run of [quiz] that returns. *)
Lemma quiz_returns {ParseTree} (pos : ParseTree -> list tagged_token)
  corpus sentences draw w rep w' :
  quiz pos corpus sentences draw w = (Returns rep, w') ->
  exists parsed w1 w2,
    get_sents corpus sentences draw w = (Returns parsed, w1)
    /\ quiz_sentences (parsed_to_tagged pos parsed) 0 [] w1
       = (Returns (results rep), w2)
    /\ total_attempted rep <> 0%Z
    /\ (mistagged rep, overused rep)
       = count_mistakes (map (fun r : sentence_result => snd r) (results rep))
    /\ report_frequent (mistagged rep)
         (World (stdin w2)
                (stdout w2 ++ [FinalScore (total_correct rep)
                                          (total_attempted rep)]))
       = (Returns tt, w').
Proof.
  unfold quiz. unfold bind at 1.
  destruct (get_sents corpus sentences draw w) as [[parsed|e] w1];
    [|discriminate].
  unfold bind at 1.
  destruct (quiz_sentences _ 0 [] w1) as [[rs|e] w2] eqn:Hrs; [|discriminate].
  unfold bind at 1, lift, Py.true_div.
  destruct (Z.eqb_spec
              (Py.sum (map (fun r : sentence_result => snd (fst r)) rs)) 0)
    as [|Hne]; [discriminate|].
  unfold bind at 1, print at 1. cbn [stdin stdout].
  destruct (count_mistakes (map (fun r : sentence_result => snd r) rs))
    as [d1 d2] eqn:Hcount.
  unfold bind at 1.
  destruct (report_frequent d1 _) as [[[]|e] w3] eqn:Hrep; [|discriminate].
  unfold ret. intros H. injection H as <- <-. cbn.
  exists parsed, w1, w2. repeat split; auto.
Qed.

Lemma tally_nil_iff tags : tally tags [] = [] <-> tags = [].
Proof.
  split; [|now intros ->].
  intros H. destruct tags as [|t tags]; [reflexivity|]. exfalso.
  assert (Hin : In t (Py.keys (tally (t :: tags) [])))
    by (rewrite DictFacts.keys_tally, DictFacts.first_occurrences_In; now left).
  now rewrite H in Hin.
Qed.

(** * Further properties of the code *)

(** ** token_list_print *)

Lemma printed_tokens_token_list_out token_list width column_counter :
  printed_tokens (token_list_out token_list width column_counter) = token_list.
Proof.
  revert column_counter.
  induction token_list as [|token rest IH]; intros c; [reflexivity|].
  cbn [token_list_out].
  destruct (c + String.length token <=? width); cbn [printed_tokens];
    now rewrite IH.
Qed.

Lemma token_list_out_messages token_list width column_counter :
  Forall (fun m => m = Newline \/ exists token, m = PrintToken token)
         (token_list_out token_list width column_counter).
Proof.
  revert column_counter.
  induction token_list as [|token rest IH]; intros c; [constructor|].
  cbn [token_list_out].
  destruct (c + String.length token <=? width).
  - constructor; [right; eauto | apply IH].
  - constructor; [now left|]. constructor; [right; eauto | apply IH].
Qed.

Lemma concat_lines_of out line :
  concat (lines_of out line) = line ++ printed_tokens out.
Proof.
  revert line. induction out as [|m out IH]; intros line.
  - cbn. now rewrite !app_nil_r.
  - destruct m; cbn [lines_of printed_tokens concat]; rewrite IH;
      try reflexivity.
    now rewrite <- app_assoc.
Qed.

Lemma line_width_snoc line token :
  line_width (line ++ [token]) = line_width line + (String.length token + 1).
Proof.
  unfold line_width. rewrite map_app, list_sum_app. cbn. lia.
Qed.

(** The loop keeps [column_counter] at most one below the characters of the
    line: after a break it forgets the space that follows the first token. *)
Lemma token_list_out_lines width token_list column_counter line :
  line_width line <= column_counter + 1 ->
  length line <= 1 \/ line_width line <= width + 2 ->
  Forall (fun l => length l <= 1 \/ line_width l <= width + 2)
         (lines_of (token_list_out token_list width column_counter) line).
Proof.
  revert column_counter line.
  induction token_list as [|token rest IH]; intros c line Hc Hline.
  - cbn. now constructor.
  - cbn [token_list_out].
    destruct (Nat.leb_spec (c + String.length token) width) as [Hfit|Hover].
    + cbn [lines_of]. apply IH.
      * rewrite line_width_snoc. lia.
      * right. rewrite line_width_snoc. lia.
    + cbn [lines_of]. constructor; [exact Hline|].
      apply IH.
      * cbn. lia.
      * left. cbn. lia.
Qed.

(** X2. A line that [token_list_print] fills with more than one token has at
    most [width + 2] characters, the space after its last token included: one
    more than the first line can have, because the space after the first
    token of a wrapped line is not counted. A token too long for the width
    stands on a line of its own. *)
Theorem token_list_print_line_width (token_list : list string) (width : nat) :
  Forall (fun line => length line <= 1 \/ line_width line <= width + 2)
         (lines_of (token_list_out token_list width 0) [])
  /\ (forall first lines,
         lines_of (token_list_out token_list width 0) [] = first :: lines ->
         line_width first <= width + 1).
Proof.
  split.
  - apply token_list_out_lines; cbn; lia.
  - assert (Hfirst : forall tl c line first lines,
               line_width line <= c ->
               line_width line <= width + 1 ->
               lines_of (token_list_out tl width c) line = first :: lines ->
               line_width first <= width + 1).
    { induction tl as [|token rest IH]; intros c line first lines Hc Hw H.
      - cbn in H. injection H as <- _. exact Hw.
      - cbn [token_list_out] in H.
        destruct (Nat.leb_spec (c + String.length token) width) as [Hfit|Hover].
        + cbn [lines_of] in H. apply (IH _ _ _ _ ) in H; auto;
            rewrite line_width_snoc; lia.
        + cbn [lines_of] in H. injection H as <- _. exact Hw. }
    intros first lines H. apply (Hfirst _ 0 [] _ _) in H; cbn; auto; lia.
Qed.

Lemma token_list_print_line_width_witness :
  lines_of (token_list_out ["aaa"; "bbb"; "cc"]%string 5 0) []
  = [["aaa"]; ["bbb"; "cc"]]%string
  /\ line_width ["aaa"%string] <= 5 + 1
  /\ line_width ["bbb"; "cc"]%string = 5 + 2.
Proof.
  split; [reflexivity|]. split; [|reflexivity].
  exact (proj2 (token_list_print_line_width ["aaa"; "bbb"; "cc"]%string 5)
               _ _ eq_refl).
Defined.

(** ** The grader: bounds and full marks *)

Lemma incorrect_of_cons tok tag (S : tagged_sentence) g (G : list string) :
  incorrect_of ((tok, tag) :: S) (g :: G)
  = (if negb (String.eqb tag g) then [(tok, tag, g)] else [])
    ++ incorrect_of S G.
Proof.
  unfold incorrect_of. rewrite !check_answers_filter. cbn.
  now destruct (String.eqb tag g).
Qed.

Lemma incorrect_of_nil_iff (S : tagged_sentence) (G : list string) :
  length G = length S ->
  incorrect_of S G = [] <-> G = map snd S.
Proof.
  revert G. induction S as [|[tok tag] S IH]; intros [|g G] Hlen;
    try discriminate.
  - split; reflexivity.
  - rewrite incorrect_of_cons. cbn [map snd].
    injection Hlen as Hlen. specialize (IH G Hlen).
    destruct (String.eqb_spec tag g) as [->|Hne]; cbn.
    + rewrite IH. split; [now intros -> | now intros [= ->]].
    + split; [discriminate | intros [= -> _]; contradiction].
Qed.

(** X3. Whatever the guesses, and however many, the correct count of the
    grader lies between 0 and the number of tokens, and there are at most as
    many mistakes as tokens. *)
Theorem grade_correct_count_bounds (S : tagged_sentence) (G : list string) :
  let '(correct_count, total_count, mistakes) := grade S G in
  (0 <= correct_count <= total_count)%Z
  /\ total_count = Z.of_nat (length S)
  /\ length mistakes <= length S.
Proof.
  rewrite grade_unfold. pose proof (incorrect_of_length S G) as H.
  rewrite length_map. repeat split; lia.
Qed.

(** X4. For guesses of the right length the grader reports no mistake, and
    counts every token as correct, exactly when the guesses are the gold tags
    of the sentence, character for character. *)
Theorem grade_full_marks_iff (S : tagged_sentence) (G : list string) :
  length G = length S ->
  (snd (grade S G) = [] <-> G = map snd S)
  /\ (fst (fst (grade S G)) = Z.of_nat (length S) <-> G = map snd S).
Proof.
  intros Hlen. rewrite grade_unfold. cbn [fst snd].
  rewrite <- (incorrect_of_nil_iff S G Hlen). split.
  - split; [apply map_eq_nil | now intros ->].
  - split.
    + intros H. destruct (incorrect_of S G); [reflexivity | cbn in H; lia].
    + intros ->. cbn. lia.
Qed.

Lemma grade_full_marks_iff_witness :
  snd (grade the_man_saw_me ["DT"; "NN"; "VBD"; "PRP"; "."]%string) = []
  /\ ["DT"; "VB"; "VBD"; "PRP"; "."]%string <> map snd the_man_saw_me.
Proof.
  split.
  - apply (proj1 (grade_full_marks_iff the_man_saw_me
                    ["DT"; "NN"; "VBD"; "PRP"; "."]%string eq_refl)).
    reflexivity.
  - intros H.
    apply (proj1 (grade_full_marks_iff the_man_saw_me
                    ["DT"; "VB"; "VBD"; "PRP"; "."]%string eq_refl)) in H.
    discriminate H.
Defined.

(** ** What sentence_quiz prints against what it returns *)

Lemma incorrect_of_sound (S : tagged_sentence) (G : list string) :
  Forall (fun token : string * string * string =>
            let '(tok, tag, tag_guess) := token in
            In (tok, tag) S /\ In tag_guess G /\ tag <> tag_guess)
         (incorrect_of S G).
Proof.
  revert G. induction S as [|[tok tag] S IH]; intros G.
  - constructor.
  - destruct G as [|g G]; [constructor|].
    rewrite incorrect_of_cons. apply Forall_app. split.
    + destruct (String.eqb_spec tag g); cbn; [constructor|].
      constructor; [|constructor]. cbn. auto.
    + eapply Forall_impl; [|apply IH].
      intros [[tok' tag'] g'] (H1 & H2 & H3). cbn. auto.
Qed.

Lemma sentence_quiz_answered (S : tagged_sentence) wrongs line rest out :
  S <> [] ->
  Forall (wrong_length (length S)) wrongs ->
  length (read_guess_tags line) = length S ->
  sentence_quiz S (World (wrongs ++ line :: rest) out)
  = (Returns (grade S (read_guess_tags line)),
     World rest
       (out ++ [TotalTokens (length S)]
            ++ rounds (map fst S) (length S) wrongs
            ++ shown (map fst S)
            ++ Score (fst (fst (grade S (read_guess_tags line)))) (length S)
               :: mistake_table (incorrect_of S (read_guess_tags line)))).
Proof.
  intros HS Hw Hl. rewrite sentence_quiz_unfold. cbn [stdin stdout].
  rewrite (until_all_tagged_retries _ _ _ _ _ _ Hw Hl).
  destruct S as [|t S']; [contradiction|].
  cbv zeta. cbn [stdin stdout]. rewrite grade_unfold. cbn [fst].
  now rewrite <- !app_assoc.
Qed.

(** X5. Once a line of the right length arrives for a sentence that is not
    empty, [sentence_quiz] prints the score it returns and, when there are
    mistakes, a table with one row per returned mistake, in the same order;
    each row names a token of the sentence with its gold tag and a guess that
    differs from it. Without a mistake no table is printed. *)
Theorem sentence_quiz_prints_its_result (S : tagged_sentence)
  wrongs line rest out :
  S <> [] ->
  Forall (wrong_length (length S)) wrongs ->
  length (read_guess_tags line) = length S ->
  let r := grade S (read_guess_tags line) in
  exists incorrect,
    sentence_quiz S (World (wrongs ++ line :: rest) out)
    = (Returns r,
       World rest
         (out ++ [TotalTokens (length S)]
              ++ rounds (map fst S) (length S) wrongs
              ++ shown (map fst S)
              ++ Score (fst (fst r)) (length S) :: mistake_table incorrect))
    /\ map tag_and_guess incorrect = snd r
    /\ Forall (fun token : string * string * string =>
                 let '(tok, tag, tag_guess) := token in
                 In (tok, tag) S /\ tag <> tag_guess) incorrect
    /\ (incorrect <> [] ->
        mistake_table incorrect
        = MistakeHeader :: MistakeRule :: map mistake_row incorrect)
    /\ (snd r = [] -> mistake_table incorrect = []).
Proof.
  intros HS Hw Hl. cbv zeta.
  exists (incorrect_of S (read_guess_tags line)).
  split; [now apply sentence_quiz_answered|].
  split; [now rewrite grade_unfold|].
  split; [|split].
  - eapply Forall_impl; [|apply incorrect_of_sound].
    intros [[tok tag] g] (H1 & _ & H3). auto.
  - intros Hne. now destruct (incorrect_of S (read_guess_tags line)).
  - rewrite grade_unfold. cbn [snd]. intros H.
    apply map_eq_nil in H. now rewrite H.
Qed.

Lemma sentence_quiz_prints_its_result_witness :
  exists incorrect,
    sentence_quiz the_man_saw_me
      (World (["dt nn"%string] ++ "dt vb vbd prp ."%string :: []) [])
    = (Returns (grade the_man_saw_me (read_guess_tags "dt vb vbd prp .")),
       World []
         ([] ++ [TotalTokens 5]
             ++ rounds (map fst the_man_saw_me) 5 ["dt nn"%string]
             ++ shown (map fst the_man_saw_me)
             ++ Score 4 5 :: mistake_table incorrect))
    /\ map tag_and_guess incorrect = [("NN", "VB")]%string.
Proof.
  destruct (sentence_quiz_prints_its_result the_man_saw_me
              ["dt nn"%string] "dt vb vbd prp ."%string [] [])
    as (incorrect & H1 & H2 & _).
  - discriminate.
  - repeat constructor. unfold wrong_length. vm_compute. discriminate.
  - reflexivity.
  - exists incorrect. split; [exact H1 | exact H2].
Defined.

(** ** The loop over the sentences *)

Lemma sum_from (l : list Z) (a : Z) :
  fold_left Z.add l a = (a + Py.sum l)%Z.
Proof.
  unfold Py.sum. revert a. induction l as [|x l IH]; intros a; cbn.
  - lia.
  - rewrite IH, (IH x). lia.
Qed.

Lemma sum_cons (x : Z) (l : list Z) : Py.sum (x :: l) = (x + Py.sum l)%Z.
Proof. unfold Py.sum at 1. cbn. rewrite sum_from. lia. Qed.

Lemma sum_app (l l' : list Z) : Py.sum (l ++ l') = (Py.sum l + Py.sum l')%Z.
Proof.
  induction l as [|x l IH]; [reflexivity|].
  cbn [app]. rewrite !sum_cons, IH. lia.
Qed.

Lemma quiz_sentences_results tagged sent_num acc w rs w' :
  quiz_sentences tagged sent_num acc w = (Returns rs, w') ->
  exists rs', rs = acc ++ rs' /\ Forall2 graded_from tagged rs'.
Proof.
  revert sent_num acc w.
  induction tagged as [|sentence rest IH]; intros sent_num acc w H.
  - injection H as <- _. exists []. split; [now rewrite app_nil_r | constructor].
  - cbn [quiz_sentences] in H. unfold bind at 1, print at 1 in H.
    unfold bind at 1 in H.
    destruct (sentence_quiz sentence _) as [[r|e] w1] eqn:Hq; [|discriminate].
    apply IH in H as (rs' & -> & Hall).
    exists (r :: rs'). split; [now rewrite <- app_assoc|].
    constructor; [|exact Hall].
    assert (Hne : sentence <> []).
    { intros ->. rewrite sentence_quiz_unfold in Hq.
      destruct (until_all_tagged _ _ _ _) as [[G|e] w2]; discriminate. }
    apply sentence_quiz_returns in Hq as (wrongs & line & _ & _ & Hl & ->).
    split; [exact Hne|]. now exists line.
Qed.

Lemma quiz_sentences_answered tagged lines sent_num acc rest out :
  Forall2 answers tagged lines ->
  exists out',
    quiz_sentences tagged sent_num acc (World (lines ++ rest) out)
    = (Returns (acc ++ grade_all tagged lines), World rest out').
Proof.
  intros Hall. revert sent_num acc out.
  induction Hall as [|sentence line tagged lines [Hne Hl] _ IH];
    intros sent_num acc out.
  - exists out. cbn. unfold ret, grade_all. cbn. now rewrite app_nil_r.
  - cbn [quiz_sentences]. unfold bind at 1, print at 1. unfold bind at 1.
    cbn [stdin stdout app].
    rewrite (sentence_quiz_answered sentence [] line (lines ++ rest) _ Hne
               (Forall_nil _) Hl).
    destruct (IH (sent_num + 1) (acc ++ [grade sentence (read_guess_tags line)])
                 (((out ++ [SentenceHeading (sent_num + 1)])
                     ++ [TotalTokens (length sentence)]
                     ++ rounds (map fst sentence) (length sentence) []
                     ++ shown (map fst sentence)
                     ++ Score (fst (fst (grade sentence (read_guess_tags line))))
                          (length sentence)
                        :: mistake_table
                             (incorrect_of sentence (read_guess_tags line)))))
      as [out' Hout'].
    exists out'. rewrite Hout'. unfold grade_all. cbn [combine map fst snd].
    now rewrite <- app_assoc.
Qed.

(** The totals that a run of [quiz] holds when it returns. *)
Lemma quiz_returns_totals {ParseTree} (pos : ParseTree -> list tagged_token)
  corpus sentences draw w rep w' :
  quiz pos corpus sentences draw w = (Returns rep, w') ->
  total_correct rep
  = Py.sum (map (fun r : sentence_result => fst (fst r)) (results rep))
  /\ total_attempted rep
     = Py.sum (map (fun r : sentence_result => snd (fst r)) (results rep)).
Proof.
  unfold quiz. unfold bind at 1.
  destruct (get_sents corpus sentences draw w) as [[parsed|e] w1];
    [|discriminate].
  unfold bind at 1.
  destruct (quiz_sentences _ 0 [] w1) as [[rs|e] w2]; [|discriminate].
  unfold bind at 1, lift, Py.true_div.
  destruct (Z.eqb_spec
              (Py.sum (map (fun r : sentence_result => snd (fst r)) rs)) 0)
    as [|Hne]; [discriminate|].
  unfold bind at 1, print at 1. cbn [stdin stdout].
  destruct (count_mistakes (map (fun r : sentence_result => snd r) rs))
    as [d1 d2].
  unfold bind at 1.
  destruct (report_frequent d1 _) as [[[]|e] w3]; [|discriminate].
  unfold ret. intros H. injection H as <- <-. cbn. auto.
Qed.

Lemma graded_from_counts (S : tagged_sentence) (r : sentence_result) :
  graded_from S r ->
  (fst (fst r) + Z.of_nat (length (snd r)) = Z.of_nat (length S))%Z
  /\ snd (fst r) = Z.of_nat (length S)
  /\ (0 <= fst (fst r))%Z
  /\ (0 < snd (fst r))%Z.
Proof.
  intros (Hne & line & _ & ->). rewrite grade_unfold. cbn [fst snd].
  pose proof (incorrect_of_length S (read_guess_tags line)).
  rewrite length_map. destruct S; [contradiction|]. cbn [length] in *.
  repeat split; lia.
Qed.

Lemma graded_from_totals tagged rs :
  Forall2 graded_from tagged rs ->
  (Py.sum (map (fun r : sentence_result => fst (fst r)) rs)
   + Z.of_nat (length (concat (map (fun r : sentence_result => snd r) rs)))
   = Py.sum (map (fun r : sentence_result => snd (fst r)) rs))%Z
  /\ Py.sum (map (fun r : sentence_result => snd (fst r)) rs)
     = Z.of_nat (length (concat tagged))
  /\ (0 <= Py.sum (map (fun r : sentence_result => fst (fst r)) rs))%Z.
Proof.
  induction 1 as [|S r tagged rs Hr _ IH]; [cbn; lia|].
  apply graded_from_counts in Hr as (H1 & H2 & H3 & _).
  cbn [map concat]. rewrite !sum_cons, !length_app, !Nat2Z.inj_add. lia.
Qed.

(** ** Runs of quiz *)

Lemma get_sents_in_range {A} (corpus : list A) (number draw : Z) (w : world) :
  (number <= Z.of_nat (length corpus))%Z ->
  let start_point := drawn_start (Z.of_nat (length corpus)) number draw in
  get_sents corpus number draw w
  = (Returns (Py.slice corpus start_point (start_point + number)),
     World (stdin w)
           (stdout w ++ [GatheringSentences; Index start_point])).
Proof.
  intros Hn. cbv zeta. rewrite get_sents_unfold. unfold Py.randint, drawn_start.
  destruct (Z.ltb_spec (Z.of_nat (length corpus) - number) 0); [lia|].
  cbv zeta. rewrite Z.sub_0_r, Z.add_0_l. now rewrite <- app_assoc.
Qed.

Lemma drawn_start_range (len number draw : Z) :
  (number <= len)%Z -> (0 <= drawn_start len number draw <= len - number)%Z.
Proof.
  intros H. unfold drawn_start.
  pose proof (Z.mod_pos_bound draw (len - number + 1) ltac:(lia)). lia.
Qed.

Lemma answers_graded_from tagged lines :
  Forall2 answers tagged lines ->
  Forall2 graded_from tagged (grade_all tagged lines).
Proof.
  induction 1 as [|S line tagged lines [Hne Hl] _ IH]; [constructor|].
  unfold grade_all. cbn [combine map fst snd]. constructor; [|exact IH].
  split; [exact Hne|]. now exists line.
Qed.

(** X7. When [quiz] returns, the total attempted is the number of tokens of
    the sampled sentences and is positive, and the total correct plus the
    number of all recorded mistakes is the total attempted; so the total
    correct lies between 0 and the total attempted. *)
Theorem quiz_totals {ParseTree}
  (pos : ParseTree -> list tagged_token) corpus sentences draw w rep w' :
  quiz pos corpus sentences draw w = (Returns rep, w') ->
  let all_mistakes :=
    concat (map (fun r : sentence_result => snd r) (results rep)) in
  (total_correct rep + Z.of_nat (length all_mistakes)
   = total_attempted rep)%Z
  /\ (0 <= total_correct rep <= total_attempted rep)%Z
  /\ (0 < total_attempted rep)%Z
  /\ exists parsed w1,
       get_sents corpus sentences draw w = (Returns parsed, w1)
       /\ total_attempted rep
          = Z.of_nat (length (concat (parsed_to_tagged pos parsed))).
Proof.
  intros H. cbv zeta.
  destruct (quiz_returns_totals _ _ _ _ _ _ _ H) as [Hc Ha].
  apply quiz_returns in H as (parsed & w1 & w2 & Hget & Hrs & Hne & _).
  apply quiz_sentences_results in Hrs as (rs' & Hrs & Hall).
  cbn [app] in Hrs. subst rs'.
  apply graded_from_totals in Hall as (H1 & H2 & H3).
  rewrite Hc, Ha in *. repeat split; try lia.
  exists parsed, w1. auto.
Qed.

Lemma quiz_totals_witness :
  exists rep w',
    quiz leaves_of [the_man_saw_me; [("Go", "VB")]%string] 2 0
      (World ["dt nn vbd prp ."; "nn"]%string [])
    = (Returns rep, w')
    /\ total_correct rep = 5%Z
    /\ total_attempted rep = 6%Z
    /\ (total_correct rep + 1 = total_attempted rep)%Z.
Proof.
  eexists. eexists. split; [vm_compute; reflexivity|].
  split; [reflexivity|]. split; [reflexivity|].
  refine (proj1 (quiz_totals leaves_of
                   [the_man_saw_me; [("Go", "VB")]%string] 2 0
                   (World ["dt nn vbd prp ."; "nn"]%string []) _ _ _)).
  vm_compute. reflexivity.
Defined.

Lemma slice_window_length {A} (corpus : list A) (number draw : Z) :
  (0 <= number <= Z.of_nat (length corpus))%Z ->
  let start_point := drawn_start (Z.of_nat (length corpus)) number draw in
  length (Py.slice corpus start_point (start_point + number))
  = Z.to_nat number.
Proof.
  intros Hn. cbv zeta.
  pose proof (drawn_start_range (Z.of_nat (length corpus)) number draw
                ltac:(lia)) as Hs.
  rewrite slice_inside by lia.
  rewrite length_firstn, length_skipn. lia.
Qed.

(** X8. [quiz] runs to its end whenever the count is between 1 and the length
    of the corpus, no sampled sentence is empty, and the input holds, for
    each sampled sentence in turn, a line with as many tags as the sentence
    has tokens: it returns the grades of these lines, one per sentence, and
    leaves the rest of the input unread. *)
Theorem quiz_completes {ParseTree} (pos : ParseTree -> list tagged_token)
  corpus sentences draw lines rest out :
  (1 <= sentences <= Z.of_nat (length corpus))%Z ->
  let start_point := drawn_start (Z.of_nat (length corpus)) sentences draw in
  let tagged :=
    parsed_to_tagged pos
      (Py.slice corpus start_point (start_point + sentences)) in
  Forall2 answers tagged lines ->
  exists rep out',
    quiz pos corpus sentences draw (World (lines ++ rest) out)
    = (Returns rep, World rest out')
    /\ results rep = grade_all tagged lines
    /\ length (results rep) = Z.to_nat sentences.
Proof.
  intros Hn start_point tagged Hall.
  assert (Hlen : length tagged = Z.to_nat sentences).
  { unfold tagged. rewrite parsed_to_tagged_map, length_map.
    apply slice_window_length. lia. }
  assert (Hres : length (grade_all tagged lines) = Z.to_nat sentences).
  { unfold grade_all. rewrite length_map, length_combine.
    apply Forall2_length in Hall. lia. }
  pose proof (answers_graded_from _ _ Hall) as Hgraded.
  pose proof (graded_from_totals _ _ Hgraded) as (_ & Htotal & _).
  assert (Hpos : Py.sum (map (fun r : sentence_result => snd (fst r))
                             (grade_all tagged lines)) <> 0%Z).
  { rewrite Htotal. destruct Hall as [|S line tagged' lines' [Hne _] _].
    - cbn in Hlen. lia.
    - destruct S; [contradiction|]. cbn. lia. }
  unfold quiz. unfold bind at 1.
  rewrite get_sents_in_range by lia. cbn [stdin stdout].
  fold start_point. fold tagged.
  destruct (quiz_sentences_answered tagged lines 0 [] rest
              (out ++ [GatheringSentences; Index start_point]) Hall)
    as [out1 Hloop].
  unfold bind at 1. rewrite Hloop. cbn [app].
  unfold bind at 1, lift, Py.true_div.
  destruct (Z.eqb_spec
              (Py.sum (map (fun r : sentence_result => snd (fst r))
                           (grade_all tagged lines))) 0)
    as [E|_]; [contradiction|].
  unfold bind at 1, print at 1. cbn [stdin stdout].
  destruct (count_mistakes
              (map (fun r : sentence_result => snd r) (grade_all tagged lines)))
    as [d1 d2].
  unfold bind at 1. rewrite report_frequent_unfold.
  destruct d1 as [|e d1]; cbn [stdin stdout]; unfold ret;
    eexists; eexists; (split; [reflexivity|]); cbn [results]; auto.
Qed.

Lemma quiz_completes_witness :
  exists rep out',
    quiz leaves_of [the_man_saw_me; [("Go", "VB")]%string] 1 1
      (World (["vb"%string] ++ ["left over"%string]) [])
    = (Returns rep, World ["left over"%string] out')
    /\ results rep = [(1%Z, 1%Z, [])].
Proof.
  destruct (quiz_completes leaves_of [the_man_saw_me; [("Go", "VB")]%string]
              1 1 ["vb"%string] ["left over"%string] [])
    as (rep & out' & H & Hres & _).
  - cbn. lia.
  - repeat constructor. discriminate.
  - exists rep, out'. split; [exact H | exact Hres].
Defined.

(** X9. With a count above the length of the corpus [quiz] stops at the
    sampler: it raises ValueError after the line that announces the
    gathering, asks nothing and reads nothing. The script asks for five
    sentences, so on a corpus of fewer than five it ends this way. *)
Theorem quiz_needs_enough_sentences {ParseTree}
  (pos : ParseTree -> list tagged_token) corpus sentences draw w :
  ((Z.of_nat (length corpus) < sentences)%Z ->
   quiz pos corpus sentences draw w
   = (Raises ValueError, World (stdin w) (stdout w ++ [GatheringSentences])))
  /\ (length corpus < 5 ->
      main pos corpus draw w
      = (Raises ValueError,
         World (stdin w)
               (stdout w ++ [LoadingTreebank; GatheringSentences]))).
Proof.
  assert (Hquiz : forall n w0,
             (Z.of_nat (length corpus) < n)%Z ->
             quiz pos corpus n draw w0
             = (Raises ValueError,
                World (stdin w0) (stdout w0 ++ [GatheringSentences]))).
  { intros n w0 Hn. unfold quiz. unfold bind at 1.
    rewrite get_sents_unfold. unfold Py.randint.
    now destruct (Z.ltb_spec (Z.of_nat (length corpus) - n) 0); [|lia]. }
  split; [apply Hquiz|].
  intros Hlen. unfold main, bind, print. rewrite Hquiz by lia.
  cbn [stdin stdout]. now rewrite <- app_assoc.
Qed.

Lemma quiz_needs_enough_sentences_witness :
  main leaves_of [the_man_saw_me] 0 (World ["dt nn vbd prp ."%string] [])
  = (Raises ValueError,
     World ["dt nn vbd prp ."%string] [LoadingTreebank; GatheringSentences]).
Proof.
  apply (proj2 (quiz_needs_enough_sentences leaves_of [the_man_saw_me] 5 0
                  (World ["dt nn vbd prp ."%string] []))).
  cbn. lia.
Defined.

(** ** The dictionaries of counts *)

Lemma sum_values_set_new k v (d : Py.dict) :
  Py.get k d = None ->
  Py.sum (Py.values (Py.set k v d)) = (Py.sum (Py.values d) + v)%Z.
Proof.
  unfold Py.values.
  induction d as [|[k' v'] d IH]; cbn [Py.get Py.set]; intros H.
  - reflexivity.
  - destruct (String.eqb k k'); [discriminate|].
    cbn [map snd]. rewrite !sum_cons, (IH H). lia.
Qed.

Lemma sum_values_set_old k v n (d : Py.dict) :
  Py.get k d = Some n ->
  Py.sum (Py.values (Py.set k v d)) = (Py.sum (Py.values d) + v - n)%Z.
Proof.
  unfold Py.values.
  induction d as [|[k' v'] d IH]; cbn [Py.get Py.set]; intros H;
    [discriminate|].
  destruct (String.eqb k k').
  - injection H as ->. cbn [map snd]. rewrite !sum_cons. lia.
  - cbn [map snd]. rewrite !sum_cons, (IH H). lia.
Qed.

Lemma sum_values_count_up k (d : Py.dict) :
  Py.sum (Py.values (count_up k d)) = (Py.sum (Py.values d) + 1)%Z.
Proof.
  unfold count_up. destruct (Py.get k d) as [n|] eqn:E.
  - rewrite (sum_values_set_old _ _ _ _ E). lia.
  - now rewrite (sum_values_set_new _ _ _ E).
Qed.

Lemma sum_values_tally tags (d : Py.dict) :
  Py.sum (Py.values (tally tags d))
  = (Py.sum (Py.values d) + Z.of_nat (length tags))%Z.
Proof.
  revert d. induction tags as [|t tags IH]; intros d; cbn [tally fold_left].
  - cbn. lia.
  - fold (tally tags (count_up t d)). rewrite IH, sum_values_count_up.
    cbn [length]. lia.
Qed.

Lemma get_In k (d : Py.dict) n : Py.get k d = Some n -> In (k, n) d.
Proof.
  induction d as [|[k' v'] d IH]; cbn; [discriminate|].
  destruct (String.eqb_spec k k') as [->|_].
  - intros [= ->]. now left.
  - intros H. right. auto.
Qed.

Lemma positive_set k v (d : Py.dict) :
  (1 <= v)%Z ->
  Forall (fun e : string * Z => (1 <= snd e)%Z) d ->
  Forall (fun e : string * Z => (1 <= snd e)%Z) (Py.set k v d).
Proof.
  intros Hv. induction 1 as [|[k' v'] d He Hd IH]; cbn.
  - repeat constructor. exact Hv.
  - destruct (String.eqb k k'); constructor; auto.
Qed.

Lemma positive_count_up k (d : Py.dict) :
  Forall (fun e : string * Z => (1 <= snd e)%Z) d ->
  Forall (fun e : string * Z => (1 <= snd e)%Z) (count_up k d).
Proof.
  intros Hd. unfold count_up. destruct (Py.get k d) as [n|] eqn:E.
  - apply positive_set; [|exact Hd].
    apply get_In in E. rewrite Forall_forall in Hd.
    specialize (Hd _ E). cbn in Hd. lia.
  - apply positive_set; [lia | exact Hd].
Qed.

Lemma positive_tally tags (d : Py.dict) :
  Forall (fun e : string * Z => (1 <= snd e)%Z) d ->
  Forall (fun e : string * Z => (1 <= snd e)%Z) (tally tags d).
Proof.
  revert d. induction tags as [|t tags IH]; intros d Hd; [exact Hd|].
  cbn [tally fold_left]. apply IH. now apply positive_count_up.
Qed.

(** X10. The counts of [mistagged] add up to the number of all the mistakes,
    and so do the counts of [overused]; every tag that either dictionary
    holds has a count of at least 1, and neither holds more tags than there
    are mistakes. *)
Theorem count_mistakes_totals (mistakes_list : list (list (string * string))) :
  let n := length (concat mistakes_list) in
  let mistagged_counts := fst (count_mistakes mistakes_list) in
  let overused_counts := snd (count_mistakes mistakes_list) in
  Py.sum (Py.values mistagged_counts) = Z.of_nat n
  /\ Py.sum (Py.values overused_counts) = Z.of_nat n
  /\ Forall (fun e : string * Z => (1 <= snd e)%Z) mistagged_counts
  /\ Forall (fun e : string * Z => (1 <= snd e)%Z) overused_counts
  /\ length mistagged_counts <= n
  /\ length overused_counts <= n.
Proof.
  cbv zeta. rewrite count_mistakes_tally. cbn [fst snd].
  assert (Hsize : forall (d : Py.dict),
             Forall (fun e : string * Z => (1 <= snd e)%Z) d ->
             (Z.of_nat (length d) <= Py.sum (Py.values d))%Z).
  { induction 1 as [|[k v] d He _ IH]; [cbn; lia|].
    unfold Py.values in *. cbn [map snd length]. rewrite sum_cons.
    cbn in He. lia. }
  pose proof (positive_tally (map fst (concat mistakes_list)) []
                (Forall_nil _)) as P1.
  pose proof (positive_tally (map snd (concat mistakes_list)) []
                (Forall_nil _)) as P2.
  pose proof (Hsize _ P1) as S1. pose proof (Hsize _ P2) as S2.
  rewrite !sum_values_tally, !length_map in *. cbn in *.
  repeat split; auto; lia.
Qed.

(** ** The report never comes empty *)

Lemma sum_le_max (l : list Z) (m : Z) :
  (forall c, In c l -> (c <= m)%Z) ->
  (Py.sum l <= m * Z.of_nat (length l))%Z.
Proof.
  induction l as [|x l IH]; intros H; [cbn; lia|].
  rewrite sum_cons. cbn [length].
  pose proof (H x (or_introl eq_refl)).
  pose proof (IH (fun c Hc => H c (or_intror Hc))). lia.
Qed.

Lemma most_mistagged_exists (d : Py.dict) :
  d <> [] ->
  exists entry, In entry d /\ forall e, In e d -> (snd e <= snd entry)%Z.
Proof.
  induction d as [|e d IH]; [contradiction|]. intros _.
  destruct d as [|e' d'].
  - exists e. split; [now left|]. intros e0 [<-|[]]. lia.
  - destruct (IH ltac:(discriminate)) as (m & Hm & Hmax).
    destruct (Z.le_gt_cases (snd e) (snd m)) as [Hle|Hgt].
    + exists m. split; [now right|]. intros e0 [<-|H0]; auto.
    + exists e. split; [now left|]. intros e0 [<-|H0]; [lia|].
      specialize (Hmax e0 H0). lia.
Qed.

Lemma most_mistagged_frequent (d : Py.dict) (entry : string * Z) :
  d <> [] ->
  (forall e, In e d -> (snd e <= snd entry)%Z) ->
  frequent d entry = true.
Proof.
  intros Hne Hmax. rewrite frequent_exact by exact Hne. apply Z.leb_le.
  unfold Py.values. rewrite <- (length_map snd d). apply sum_le_max.
  intros c Hc. apply in_map_iff in Hc as (e & <- & He). auto.
Qed.

(** X11. When at least one tag was mistagged, a tag whose count no other
    count exceeds is always at or above the average, so the report lists at
    least one tag after its heading. *)
Theorem report_frequent_lists_most_mistagged (mistagged_counts : Py.dict)
  (w : world) :
  mistagged_counts <> [] ->
  (forall entry,
      In entry mistagged_counts ->
      (forall e, In e mistagged_counts -> (snd e <= snd entry)%Z) ->
      frequent mistagged_counts entry = true)
  /\ exists row rows,
       report_frequent mistagged_counts w
       = (Returns tt,
          World (stdin w) (stdout w ++ FrequentHeader :: row :: rows)).
Proof.
  intros Hne. split.
  - intros entry _ Hmax. now apply most_mistagged_frequent.
  - rewrite report_frequent_unfold.
    destruct (most_mistagged_exists _ Hne) as (m & Hm & Hmax).
    assert (Hin : In m (filter (frequent mistagged_counts) mistagged_counts)).
    { apply filter_In. split; [exact Hm|].
      now apply most_mistagged_frequent. }
    destruct mistagged_counts as [|e d]; [contradiction|].
    destruct (filter (frequent (e :: d)) (e :: d)) as [|x xs]; [contradiction|].
    cbn [map]. eauto.
Qed.

Lemma report_frequent_lists_most_mistagged_witness :
  frequent [("NN", 3%Z); ("DT", 1%Z); ("VB", 3%Z)]%string ("VB"%string, 3%Z)
  = true
  /\ exists row rows,
       report_frequent [("NN", 3%Z); ("DT", 1%Z); ("VB", 3%Z)]%string
         (World [] [])
       = (Returns tt, World [] ([] ++ FrequentHeader :: row :: rows)).
Proof.
  destruct (report_frequent_lists_most_mistagged
              [("NN", 3%Z); ("DT", 1%Z); ("VB", 3%Z)]%string (World [] [])
              ltac:(discriminate)) as [Hmax Hrows].
  split; [|exact Hrows].
  apply Hmax; [cbn; auto|].
  intros e [<-|[<-|[<-|[]]]]; cbn; lia.
Defined.

(** ** Converting only the sample *)

(** X12. Converting a slice of the corpus gives the same tagged sentences as
    converting the whole corpus and taking the slice afterwards, and the
    conversion of two lists of trees one after the other is the conversion of
    the first followed by that of the second: each tree is converted on its
    own. *)
Theorem parsed_to_tagged_of_window {ParseTree}
  (pos : ParseTree -> list tagged_token) (corpus more : list ParseTree)
  (start stop : Z) :
  parsed_to_tagged pos (Py.slice corpus start stop)
  = Py.slice (parsed_to_tagged pos corpus) start stop
  /\ parsed_to_tagged pos (corpus ++ more)
     = parsed_to_tagged pos corpus ++ parsed_to_tagged pos more.
Proof.
  rewrite !parsed_to_tagged_map. split.
  - unfold Py.slice. rewrite length_map, skipn_map, firstn_map. reflexivity.
  - apply map_app.
Qed.

(** ** The tags of a line *)

Lemma no_space_append a b :
  no_space (a ++ b) = no_space a && no_space b.
Proof.
  induction a as [|c a IH]; cbn; [reflexivity|].
  rewrite IH. now rewrite andb_assoc.
Qed.

Lemma is_empty_false s : PyStr.is_empty s = false -> s <> EmptyString.
Proof. now destruct s. Qed.

Lemma split_from_words w s :
  no_space w = true -> Forall word (PyStr.split_from w s).
Proof.
  revert w. induction s as [|c s IH]; intros w Hw; cbn.
  - destruct (PyStr.is_empty w) eqn:E; [constructor|].
    constructor; [|constructor]. split; [now apply is_empty_false | exact Hw].
  - destruct (PyStr.isspace c) eqn:Ec.
    + destruct (PyStr.is_empty w) eqn:E; [now apply IH|].
      constructor; [|now apply IH].
      split; [now apply is_empty_false | exact Hw].
    + apply IH. rewrite no_space_append, Hw. cbn. now rewrite Ec.
Qed.

Lemma split_from_word_prefix w t s :
  no_space t = true ->
  PyStr.split_from w (t ++ s) = PyStr.split_from (w ++ t) s.
Proof.
  revert w. induction t as [|c t IH]; intros w Ht.
  - cbn. f_equal. clear. induction w as [|c w IH]; cbn; congruence.
  - cbn in Ht. apply andb_true_iff in Ht as [Hc Ht].
    apply negb_true_iff in Hc. cbn [String.append PyStr.split_from].
    rewrite Hc, (IH _ Ht). f_equal.
    clear. induction w as [|c' w IH]; cbn; congruence.
Qed.

Lemma split_concat_words (tags : list string) :
  Forall word tags ->
  PyStr.split (String.concat " " tags) = tags.
Proof.
  unfold PyStr.split.
  induction 1 as [|t tags [Hne Ht] Htags IH]; [reflexivity|].
  destruct tags as [|t2 tags].
  - cbn [String.concat].
    assert (E : t = (t ++ EmptyString)%string)
      by (clear; induction t as [|c t IHt]; cbn; congruence).
    rewrite E at 1. rewrite (split_from_word_prefix _ _ _ Ht).
    cbn. now destruct t.
  - change (String.concat " " (t :: t2 :: tags))
      with (t ++ " " ++ String.concat " " (t2 :: tags))%string.
    rewrite (split_from_word_prefix _ _ _ Ht).
    cbn [String.append PyStr.split_from].
    replace (PyStr.isspace " ") with true by reflexivity.
    destruct t; [contradiction|]. cbn [PyStr.is_empty].
    now rewrite IH.
Qed.

(** X14. For a sentence whose gold tags are non-empty strings without a
    blank, every line that, folded to upper case, is the gold tags separated
    by single spaces gets full marks: all tokens correct and no mistake. So
    the gold tags typed in any letter case are accepted when the gold tags
    themselves are in upper case. *)
Theorem gold_tags_in_any_case_get_full_marks (S : tagged_sentence)
  (line : string) :
  Forall word (map snd S) ->
  PyStr.upper line = String.concat " " (map snd S) ->
  read_guess_tags line = map snd S
  /\ grade S (read_guess_tags line)
     = (Z.of_nat (length S), Z.of_nat (length S), []).
Proof.
  intros Hw Hline.
  assert (Hread : read_guess_tags line = map snd S).
  { unfold read_guess_tags. rewrite Hline. now apply split_concat_words. }
  split; [exact Hread|].
  rewrite grade_unfold, Hread.
  assert (Hnone : incorrect_of S (map snd S) = [])
    by (apply incorrect_of_nil_iff; [apply length_map | reflexivity]).
  rewrite Hnone. cbn. f_equal. f_equal. lia.
Qed.

Lemma gold_tags_in_any_case_get_full_marks_witness :
  grade the_man_saw_me (read_guess_tags "DT nN vbd PRp .") = (5%Z, 5%Z, []).
Proof.
  refine (proj2 (gold_tags_in_any_case_get_full_marks the_man_saw_me
                   "DT nN vbd PRp ." _ eq_refl)).
  repeat constructor; discriminate.
Defined.

(** ** Where token_list_print breaks the line *)

Lemma lines_of_started token_list width column_counter line :
  line <> [] ->
  Forall (fun l => l <> [])
         (lines_of (token_list_out token_list width column_counter) line).
Proof.
  revert column_counter line.
  induction token_list as [|token rest IH]; intros c line Hline.
  - cbn. now constructor.
  - cbn [token_list_out].
    destruct (c + String.length token <=? width); cbn [lines_of].
    + apply IH. now destruct line.
    + constructor; [exact Hline|]. apply IH. discriminate.
Qed.

Lemma lines_of_after_first token_list width column_counter line :
  exists first lines,
    lines_of (token_list_out token_list width column_counter) line
    = first :: lines
    /\ Forall (fun l => l <> []) lines
    /\ (line <> [] -> first <> []).
Proof.
  revert column_counter line.
  induction token_list as [|token rest IH]; intros c line.
  - exists line, []. cbn. auto.
  - cbn [token_list_out].
    destruct (c + String.length token <=? width); cbn [lines_of].
    + destruct (IH (c + (String.length token + 1)) (line ++ [token]))
        as (first & lines & E & Hl & Hf).
      exists first, lines. split; [exact E|]. split; [exact Hl|].
      intros _. apply Hf. now destruct line.
    + exists line, (lines_of (token_list_out rest width (String.length token))
                             [token]).
      split; [reflexivity|]. split; [|auto].
      apply lines_of_started. discriminate.
Qed.

(** X1. [token_list_print] prints every token of the list once, in the order
    of the list, and besides the tokens only line breaks, then ends the last
    line. No line after the first is empty, so two breaks never follow each
    other; the first line is empty exactly when the first token is longer
    than the width, the one case of a break before any token. *)
Theorem token_list_print_every_token (token_list : list string) (width : nat)
  (w : world) :
  exists out first lines,
    token_list_print token_list width w
    = (Returns tt, World (stdin w) (stdout w ++ out ++ [Newline]))
    /\ printed_tokens out = token_list
    /\ Forall (fun m => m = Newline \/ exists token, m = PrintToken token) out
    /\ lines_of out [] = first :: lines
    /\ concat (first :: lines) = token_list
    /\ Forall (fun l => l <> []) lines
    /\ match token_list with
       | [] => first = [] /\ lines = []
       | token :: _ => first = [] <-> width < String.length token
       end.
Proof.
  destruct (lines_of_after_first token_list width 0 [])
    as (first & lines & E & Hl & _).
  exists (token_list_out token_list width 0), first, lines.
  split; [reflexivity|]. split; [apply printed_tokens_token_list_out|].
  split; [apply token_list_out_messages|]. split; [exact E|].
  split; [rewrite <- E, concat_lines_of; apply printed_tokens_token_list_out|].
  split; [exact Hl|].
  destruct token_list as [|token rest].
  - cbn in E. injection E as <- <-. auto.
  - cbn [token_list_out] in E. cbn [Nat.add] in E.
    destruct (Nat.leb_spec (String.length token) width) as [Hfit|Hover].
    + cbn [lines_of app] in E.
      destruct (lines_of_after_first rest width
                  (0 + (String.length token + 1)) [token])
        as (f' & l' & E' & _ & Hf).
      cbn [Nat.add] in E'. rewrite E' in E. injection E as <- _.
      split; [intros H; exfalso; apply Hf; [discriminate | exact H] | lia].
    + cbn [lines_of] in E. injection E as <- _. split; auto.
Qed.

Lemma token_list_print_every_token_witness :
  exists out first lines,
    token_list_print ["abcdefgh"; "ij"]%string 3 (World [] [])
    = (Returns tt, World [] ([] ++ out ++ [Newline]))
    /\ lines_of out [] = first :: lines
    /\ first = []
    /\ concat (first :: lines) = ["abcdefgh"; "ij"]%string.
Proof.
  destruct (token_list_print_every_token ["abcdefgh"; "ij"]%string 3
              (World [] []))
    as (out & first & lines & H & _ & _ & E & Hc & _ & Hfirst).
  exists out, first, lines. split; [exact H|]. split; [exact E|].
  split; [|exact Hc]. apply Hfirst. cbn. lia.
Defined.

(** ** Runs of quiz, line by line *)

Lemma grade_all_cons S line tagged lines :
  grade_all (S :: tagged) (line :: lines)
  = grade S (read_guess_tags line) :: grade_all tagged lines.
Proof. reflexivity. Qed.

Lemma quiz_sentences_reads tagged sent_num acc w rs w' :
  quiz_sentences tagged sent_num acc w = (Returns rs, w') ->
  exists reads : list reading,
    rs = acc ++ grade_all tagged (map snd reads)
    /\ stdin w = consumed reads ++ stdin w'
    /\ Forall2 read_for tagged reads.
Proof.
  revert sent_num acc w.
  induction tagged as [|sentence rest IH]; intros sent_num acc w H.
  - injection H as <- <-. exists []. cbn. rewrite app_nil_r. auto.
  - cbn [quiz_sentences] in H. unfold bind at 1, print at 1 in H.
    unfold bind at 1 in H.
    destruct (sentence_quiz sentence _) as [[r|e] w1] eqn:Hq; [|discriminate].
    apply IH in H as (reads & -> & Hin & Hall).
    assert (Hne : sentence <> []).
    { intros ->. rewrite sentence_quiz_unfold in Hq.
      destruct (until_all_tagged _ _ _ _) as [[G|e] w2]; discriminate. }
    apply sentence_quiz_returns in Hq as (wrongs & line & Hw & Hwrong & Hl & ->).
    cbn [stdin] in Hw.
    exists ((wrongs, line) :: reads). split; [|split].
    + cbn [map snd]. rewrite grade_all_cons. now rewrite <- app_assoc.
    + unfold consumed. cbn [map concat fst snd]. fold (consumed reads).
      rewrite Hw, Hin. now rewrite <- !app_assoc.
    + constructor; [|exact Hall]. repeat split; auto.
Qed.

Lemma get_sents_keeps_stdin {A} (corpus : list A) number draw w o w1 :
  get_sents corpus number draw w = (o, w1) -> stdin w1 = stdin w.
Proof.
  rewrite get_sents_unfold. cbv zeta.
  destruct (Py.randint 0 (Z.of_nat (length corpus) - number) draw);
    intros H; injection H as _ <-; reflexivity.
Qed.

Lemma report_frequent_prints (mistagged : Py.dict) (w : world) :
  report_frequent mistagged w
  = (Returns tt, World (stdin w) (stdout w ++ frequent_report mistagged)).
Proof.
  rewrite report_frequent_unfold. destruct mistagged as [|e d], w as [i o].
  - cbn. now rewrite app_nil_r.
  - reflexivity.
Qed.

(** A run of [quiz] that returns, step by step: the sample, the readings of
    the sentences, the two dictionaries, and what the run has printed when it
    ends. *)
Lemma quiz_run {ParseTree} (pos : ParseTree -> list tagged_token)
  corpus sentences draw w rep w' :
  quiz pos corpus sentences draw w = (Returns rep, w') ->
  exists parsed w1 w2 (reads : list reading),
    get_sents corpus sentences draw w = (Returns parsed, w1)
    /\ results rep = grade_all (parsed_to_tagged pos parsed) (map snd reads)
    /\ stdin w = consumed reads ++ stdin w'
    /\ Forall2 read_for (parsed_to_tagged pos parsed) reads
    /\ quiz_sentences (parsed_to_tagged pos parsed) 0 [] w1
       = (Returns (results rep), w2)
    /\ (mistagged rep, overused rep)
       = count_mistakes (map (fun r : sentence_result => snd r) (results rep))
    /\ w' = World (stdin w2)
                  (stdout w2
                     ++ FinalScore (total_correct rep) (total_attempted rep)
                     :: frequent_report (mistagged rep)).
Proof.
  intros H.
  apply quiz_returns in H
    as (parsed & w1 & w2 & Hget & Hrs & _ & Hcount & Hrep).
  destruct (quiz_sentences_reads _ _ _ _ _ _ Hrs) as (reads & Hres & Hin & Hall).
  rewrite report_frequent_prints in Hrep. cbn [stdin stdout] in Hrep.
  injection Hrep as <-.
  exists parsed, w1, w2, reads. cbn [stdin].
  rewrite <- (get_sents_keeps_stdin _ _ _ _ _ _ Hget).
  repeat split; auto. now rewrite <- app_assoc.
Qed.

Lemma consumed_In (reads : list reading) line :
  In line (map snd reads) -> In line (consumed reads).
Proof.
  induction reads as [|[wrongs l] reads IH]; [contradiction|].
  unfold consumed. cbn [map concat fst snd]. fold (consumed reads).
  intros [<-|H]; rewrite !in_app_iff; cbn; auto.
Qed.

Lemma grade_all_In tagged lines r :
  In r (grade_all tagged lines) ->
  exists S line, In line lines /\ r = grade S (read_guess_tags line).
Proof.
  unfold grade_all. intros H.
  apply in_map_iff in H as ([S line] & <- & Hin).
  apply in_combine_r in Hin. now exists S, line.
Qed.

(** X6. When [quiz] returns, it has read from the input, for each sampled
    sentence in turn, some lines with the wrong number of tags and then one
    line with the right number, and nothing else; it holds one result per
    sampled sentence, in the order of the sample, the i-th being the grade of
    the i-th tagged sentence against the line that ended its reading; and no
    sampled sentence was empty. *)
Theorem quiz_one_result_per_sentence {ParseTree}
  (pos : ParseTree -> list tagged_token) corpus sentences draw w rep w' :
  quiz pos corpus sentences draw w = (Returns rep, w') ->
  exists parsed w1 (reads : list reading),
    get_sents corpus sentences draw w = (Returns parsed, w1)
    /\ stdin w = consumed reads ++ stdin w'
    /\ Forall2 read_for (parsed_to_tagged pos parsed) reads
    /\ results rep = grade_all (parsed_to_tagged pos parsed) (map snd reads)
    /\ length (results rep) = length parsed.
Proof.
  intros H.
  apply quiz_run in H
    as (parsed & w1 & w2 & reads & Hget & Hres & Hin & Hall & _).
  exists parsed, w1, reads. repeat split; auto.
  rewrite Hres. unfold grade_all.
  apply Forall2_length in Hall.
  assert (Htagged : length (parsed_to_tagged pos parsed) = length parsed)
    by (rewrite parsed_to_tagged_map; apply length_map).
  rewrite length_map, length_combine, (length_map snd reads).
  unfold reading in *. lia.
Qed.

Lemma quiz_one_result_per_sentence_witness :
  exists rep w' parsed w1 (reads : list reading),
    quiz leaves_of [the_man_saw_me; [("Go", "VB")]%string] 2 0
      (World ["dt nn"; "dt nn vbd prp ."; "nn"; "left"]%string [])
    = (Returns rep, w')
    /\ get_sents [the_man_saw_me; [("Go", "VB")]%string] 2 0
         (World ["dt nn"; "dt nn vbd prp ."; "nn"; "left"]%string [])
       = (Returns parsed, w1)
    /\ ["dt nn"; "dt nn vbd prp ."; "nn"; "left"]%string
       = consumed reads ++ stdin w'
    /\ results rep
       = grade_all (parsed_to_tagged leaves_of parsed) (map snd reads).
Proof.
  eexists. eexists.
  destruct (quiz_one_result_per_sentence leaves_of
              [the_man_saw_me; [("Go", "VB")]%string] 2 0
              (World ["dt nn"; "dt nn vbd prp ."; "nn"; "left"]%string [])
              (QuizReport
                 [(5%Z, 5%Z, []); (0%Z, 1%Z, [("VB", "NN")]%string)]
                 5 6 [("VB"%string, 1%Z)] [("NN"%string, 1%Z)])
              (snd (quiz leaves_of
                      [the_man_saw_me; [("Go", "VB")]%string] 2 0
                      (World ["dt nn"; "dt nn vbd prp ."; "nn"; "left"]%string
                             [])))
              ltac:(vm_compute; reflexivity))
    as (parsed & w1 & reads & Hget & Hin & _ & Hres & _).
  exists parsed, w1, reads.
  split; [vm_compute; reflexivity|]. split; [exact Hget|].
  split; [exact Hin | exact Hres].
Defined.

(** ** The report at the end of a run *)

Lemma quiz_answered {ParseTree} (pos : ParseTree -> list tagged_token)
  corpus sentences draw lines rest out :
  (1 <= sentences <= Z.of_nat (length corpus))%Z ->
  let start_point := drawn_start (Z.of_nat (length corpus)) sentences draw in
  let tagged :=
    parsed_to_tagged pos
      (Py.slice corpus start_point (start_point + sentences)) in
  Forall2 answers tagged lines ->
  exists rep out',
    quiz pos corpus sentences draw (World (lines ++ rest) out)
    = (Returns rep, World rest out')
    /\ results rep = grade_all tagged lines.
Proof.
  intros Hn start_point tagged Hall.
  assert (Hlen : length tagged = Z.to_nat sentences).
  { unfold tagged. rewrite parsed_to_tagged_map, length_map.
    apply slice_window_length. lia. }
  pose proof (answers_graded_from _ _ Hall) as Hgraded.
  pose proof (graded_from_totals _ _ Hgraded) as (_ & Htotal & _).
  assert (Hpos : Py.sum (map (fun r : sentence_result => snd (fst r))
                             (grade_all tagged lines)) <> 0%Z).
  { rewrite Htotal. destruct Hall as [|S line tagged' lines' [Hne _] _].
    - cbn in Hlen. lia.
    - destruct S; [contradiction|]. cbn. lia. }
  unfold quiz. unfold bind at 1.
  rewrite get_sents_in_range by lia. cbn [stdin stdout].
  fold start_point. fold tagged.
  destruct (quiz_sentences_answered tagged lines 0 [] rest
              (out ++ [GatheringSentences; Index start_point]) Hall)
    as [out1 Hloop].
  unfold bind at 1. rewrite Hloop. cbn [app].
  unfold bind at 1, lift, Py.true_div.
  destruct (Z.eqb_spec
              (Py.sum (map (fun r : sentence_result => snd (fst r))
                           (grade_all tagged lines))) 0)
    as [E|_]; [contradiction|].
  unfold bind at 1, print at 1. cbn [stdin stdout].
  destruct (count_mistakes
              (map (fun r : sentence_result => snd r) (grade_all tagged lines)))
    as [d1 d2].
  unfold bind at 1. rewrite report_frequent_prints.
  cbn [stdin stdout]. unfold ret. eexists. eexists.
  split; [reflexivity | reflexivity].
Qed.

(** C8. The two dictionaries count, over all the mistakes in order, the
    occurrences of each gold tag ([mistagged]) and of each guessed tag
    ([overused]). When [mistagged] is empty, which is when there is no
    mistake at all, nothing is reported; otherwise the average is the sum of
    its counts over the number of its tags, and the report lists, after its
    heading, exactly the tags whose count is at least the average. A run of
    [quiz] that returns holds these dictionaries of the mistakes of its
    results, and the last thing it has printed is the final score followed by
    this report, or by nothing when there was no mistake; and a run on
    answered sentences does return so. *)
Theorem frequently_mistagged_report
  (mistakes_list : list (list (string * string))) (w : world) :
  let flat := concat mistakes_list in
  let mistagged_counts := fst (count_mistakes mistakes_list) in
  let overused_counts := snd (count_mistakes mistakes_list) in
  (forall tag, Py.get tag mistagged_counts = counted tag (map fst flat))
  /\ (forall tag, Py.get tag overused_counts = counted tag (map snd flat))
  /\ Py.keys mistagged_counts = first_occurrences (map fst flat)
  /\ Py.keys overused_counts = first_occurrences (map snd flat)
  /\ (flat = [] ->
      mistagged_counts = []
      /\ report_frequent mistagged_counts w = (Returns tt, w))
  /\ (flat <> [] ->
      mistagged_counts <> []
      /\ report_frequent mistagged_counts w
         = (Returns tt,
            World (stdin w)
                  (stdout w ++ FrequentHeader
                     :: map frequent_row
                          (filter (frequent mistagged_counts)
                                  mistagged_counts))))
  /\ (forall entry,
        frequent mistagged_counts entry = true
        <-> (average mistagged_counts <= inject_Z (snd entry))%Q)
  /\ (forall ParseTree (pos : ParseTree -> list tagged_token)
             corpus sentences draw w0 rep w',
        quiz pos corpus sentences draw w0 = (Returns rep, w') ->
        (mistagged rep, overused rep)
        = count_mistakes (map (fun r : sentence_result => snd r)
                              (results rep))
        /\ exists out,
             stdout w'
             = out ++ FinalScore (total_correct rep) (total_attempted rep)
                   :: frequent_report (mistagged rep))
  /\ (forall ParseTree (pos : ParseTree -> list tagged_token)
             corpus sentences draw lines rest out,
        (1 <= sentences <= Z.of_nat (length corpus))%Z ->
        let start_point :=
          drawn_start (Z.of_nat (length corpus)) sentences draw in
        let tagged :=
          parsed_to_tagged pos
            (Py.slice corpus start_point (start_point + sentences)) in
        Forall2 answers tagged lines ->
        exists rep out',
          quiz pos corpus sentences draw (World (lines ++ rest) out)
          = (Returns rep,
             World rest
               (out' ++ FinalScore (total_correct rep) (total_attempted rep)
                     :: frequent_report (mistagged rep)))
          /\ (mistagged rep, overused rep)
             = count_mistakes (map (fun r : sentence_result => snd r)
                                   (grade_all tagged lines))).
Proof.
  cbv zeta. rewrite count_mistakes_tally. cbn [fst snd].
  split; [|split; [|split; [|split; [|split; [|split; [|split; [|split]]]]]]].
  - intros tag. apply DictFacts.get_tally.
  - intros tag. apply DictFacts.get_tally.
  - apply DictFacts.keys_tally.
  - apply DictFacts.keys_tally.
  - intros ->. split; reflexivity.
  - intros Hflat.
    assert (Hne : tally (map fst (concat mistakes_list)) [] <> []).
    { rewrite tally_nil_iff. intros H. apply map_eq_nil in H. contradiction. }
    split; [exact Hne|]. rewrite report_frequent_unfold.
    now destruct (tally (map fst (concat mistakes_list)) []).
  - intros entry. unfold frequent. apply Qle_bool_iff.
  - intros ParseTree pos corpus sentences draw w0 rep w' H.
    apply quiz_run in H as (_ & _ & w2 & _ & _ & _ & _ & _ & _ & Hcount & ->).
    split; [exact Hcount|]. exists (stdout w2). reflexivity.
  - intros ParseTree pos corpus sentences draw lines rest out Hn Hall.
    destruct (quiz_answered pos corpus sentences draw lines rest out Hn Hall)
      as (rep & out' & Hrun & Hres).
    pose proof (quiz_run _ _ _ _ _ _ _ Hrun)
      as (_ & _ & w2 & _ & _ & _ & _ & _ & _ & Hcount & Hw').
    injection Hw' as _ ->.
    exists rep, (stdout w2). split; [exact Hrun|].
    now rewrite <- Hres.
Qed.

Lemma frequently_mistagged_report_witness :
  fst (count_mistakes [[("NN", "VB")]; [("NN", "JJ"); ("DT", "JJ")]]%string)
  = [("NN", 2%Z); ("DT", 1%Z)]%string
  /\ report_frequent
       (fst (count_mistakes
               [[("NN", "VB")]; [("NN", "JJ"); ("DT", "JJ")]]%string))
       (World [] [])
     = (Returns tt, World [] [FrequentHeader; FrequentRow "NN" 2])
  /\ report_frequent (fst (count_mistakes [[]; []])) (World [] [])
     = (Returns tt, World [] [])
  /\ exists rep out',
       quiz leaves_of [the_man_saw_me; the_man_saw_me] 2 0
         (World (["dt vb vbd prp ."; "DT Vb vbd PRP ."]%string ++ []) [])
       = (Returns rep,
          World []
            (out' ++ FinalScore (total_correct rep) (total_attempted rep)
                  :: frequent_report (mistagged rep)))
       /\ (mistagged rep, overused rep)
          = ([("NN"%string, 2%Z)], [("VB"%string, 2%Z)]).
Proof.
  split; [reflexivity|]. split; [|split].
  - destruct (frequently_mistagged_report
                [[("NN", "VB")]; [("NN", "JJ"); ("DT", "JJ")]]%string
                (World [] []))
      as (_ & _ & _ & _ & _ & H & _).
    destruct (H ltac:(discriminate)) as [_ ->]. reflexivity.
  - destruct (frequently_mistagged_report [[]; []] (World [] []))
      as (_ & _ & _ & _ & H & _).
    exact (proj2 (H eq_refl)).
  - destruct (frequently_mistagged_report [] (World [] []))
      as (_ & _ & _ & _ & _ & _ & _ & _ & H).
    destruct (H _ leaves_of [the_man_saw_me; the_man_saw_me] 2%Z 0%Z
                ["dt vb vbd prp ."; "DT Vb vbd PRP ."]%string [] []
                ltac:(cbn; lia) ltac:(repeat constructor; discriminate))
      as (rep & out' & Hrun & Hcount).
    exists rep, out'. split; [exact Hrun|]. rewrite Hcount. reflexivity.
Defined.

(** ** What folding a line to upper case leaves *)

Module FoldFacts.
Import PyStr.

Lemma exact_upper_char c :
  implb (exact c) (negb (lowercase (upper_char c)) || ordinal (upper_char c))
  = true.
Proof. PyStrFacts.by_cases_on_char c. Qed.

Lemma ascii_upper_char c :
  implb (nat_of_ascii c <? 128) (negb (lowercase (upper_char c))) = true.
Proof. PyStrFacts.by_cases_on_char c. Qed.

Lemma all_chars_append p a b :
  all_chars p (a ++ b) = all_chars p a && all_chars p b.
Proof.
  induction a as [|c a IH]; cbn; [reflexivity|].
  rewrite IH. now rewrite andb_assoc.
Qed.

Lemma all_chars_upper (p q : ascii -> bool) s :
  (forall c, implb (p c) (q (upper_char c)) = true) ->
  all_chars p s = true -> all_chars q (upper s) = true.
Proof.
  intros Hpq. induction s as [|c s IH]; cbn; [reflexivity|].
  intros H. apply andb_true_iff in H as [Hc Hs].
  specialize (Hpq c). rewrite Hc in Hpq. cbn in Hpq.
  now rewrite Hpq, IH.
Qed.

Lemma split_from_all_chars p w s :
  all_chars p w = true -> all_chars p s = true ->
  Forall (fun g => all_chars p g = true) (split_from w s).
Proof.
  revert w. induction s as [|c s IH]; intros w Hw Hs; cbn.
  - destruct (is_empty w); repeat constructor. exact Hw.
  - cbn in Hs. apply andb_true_iff in Hs as [Hc Hs].
    destruct (isspace c).
    + destruct (is_empty w); [now apply IH|].
      constructor; [exact Hw | now apply IH].
    + apply IH; [|exact Hs]. rewrite all_chars_append, Hw. cbn.
      now rewrite Hc.
Qed.

Lemma split_upper_all_chars (p q : ascii -> bool) line :
  (forall c, implb (p c) (q (upper_char c)) = true) ->
  all_chars p line = true ->
  Forall (fun g => all_chars q g = true) (split (upper line)).
Proof.
  intros Hpq Hline. apply split_from_all_chars; [reflexivity|].
  now apply (all_chars_upper p q).
Qed.

End FoldFacts.

Lemma read_guess_tags_folded line :
  PyStr.exact_line line = true ->
  Forall (fun g => PyStr.folded g = true) (read_guess_tags line).
Proof.
  apply (FoldFacts.split_upper_all_chars PyStr.exact
           (fun c => negb (PyStr.lowercase c) || PyStr.ordinal c)).
  apply FoldFacts.exact_upper_char.
Qed.

Lemma read_guess_tags_fully_upper line :
  ascii_line line = true ->
  Forall (fun g => PyStr.fully_upper g = true) (read_guess_tags line).
Proof.
  apply (FoldFacts.split_upper_all_chars (fun c => nat_of_ascii c <? 128)
           (fun c => negb (PyStr.lowercase c))).
  apply FoldFacts.ascii_upper_char.
Qed.

(** Every guess that a run of [quiz] records was read from a line of its
    input. *)
Lemma quiz_guesses_read {ParseTree} (pos : ParseTree -> list tagged_token)
  corpus sentences draw w rep w' :
  quiz pos corpus sentences draw w = (Returns rep, w') ->
  forall g,
    In g (map snd (concat (map (fun r : sentence_result => snd r)
                               (results rep)))) ->
    exists line, In line (stdin w) /\ In g (read_guess_tags line).
Proof.
  intros H g Hg.
  apply quiz_run in H as (parsed & _ & _ & reads & _ & Hres & Hin & _).
  apply in_map_iff in Hg as (m & <- & Hm).
  apply in_concat in Hm as (ms & Hms & Hm).
  apply in_map_iff in Hms as (r & <- & Hr).
  rewrite Hres in Hr.
  apply grade_all_In in Hr as (S & line & Hline & ->).
  exists line. split.
  - rewrite Hin. apply in_app_iff. left. now apply consumed_In.
  - now apply grade_mistakes_guess in Hm.
Qed.

Lemma guesses_of_lines (P : string -> Prop) (Q : string -> Prop)
  (lines guesses : list string) :
  Forall P lines ->
  (forall line, P line -> Forall Q (read_guess_tags line)) ->
  (forall g, In g guesses ->
             exists line, In line lines /\ In g (read_guess_tags line)) ->
  Forall Q guesses.
Proof.
  intros HP HPQ Hread. apply Forall_forall. intros g Hg.
  destruct (Hread g Hg) as (line & Hline & Hin).
  rewrite Forall_forall in HP. specialize (HPQ line (HP line Hline)).
  rewrite Forall_forall in HPQ. now apply HPQ.
Qed.




(** X13. On a line of code points that the model folds as Python does, every
    tag read by [input().upper().split()] is a non-empty string without a
    blank, left alone by the fold, and its only lower-case characters, if
    any, are ordinal indicators; folding the line to upper case does not
    change how many tags it holds; and the empty line holds none. *)
Theorem read_guess_tags_are_words (line : string) :
  PyStr.exact_line line = true ->
  Forall (fun g => word g /\ PyStr.no_lower g = true /\ PyStr.upper g = g
                   /\ PyStr.folded g = true)
         (read_guess_tags line)
  /\ length (read_guess_tags line) = length (PyStr.split line)
  /\ read_guess_tags EmptyString = [].
Proof.
  intros Hline.
  split; [|split; [apply length_read_guess_tags | reflexivity]].
  pose proof (split_from_words EmptyString (PyStr.upper line) eq_refl) as Hw.
  pose proof (read_guess_tags_no_lower line) as Hl.
  pose proof (read_guess_tags_folded line Hline) as Hf.
  unfold read_guess_tags, PyStr.split in *.
  rewrite Forall_forall in *. intros g Hg.
  split; [now apply Hw|]. split; [now apply Hl|]. split; [|now apply Hf].
  apply PyStrFacts.no_lower_fixed. now apply Hl.
Qed.

Lemma read_guess_tags_are_words_witness :
  Forall (fun g => word g /\ PyStr.no_lower g = true /\ PyStr.upper g = g
                   /\ PyStr.folded g = true)
         (read_guess_tags ("dt " ++ n_ordinal))
  /\ read_guess_tags ("dt " ++ n_ordinal) = ["DT"%string; N_ordinal].
Proof.
  split; [|reflexivity].
  exact (proj1 (read_guess_tags_are_words ("dt " ++ n_ordinal) eq_refl)).
Defined.
